(** * IMDb Top-1000 analysis scripts: cleaning pipeline and insights

    A shallow embedding of the data-cleaning, feature-derivation and insight
    code of [IMDB_data_analysis.py] and [imdb.py], followed by theorems about
    it.  The two scripts are modelled side by side; what they share (Python
    string built-ins, the pandas column operations they call) comes first.

    Modelling conventions:
    - a Python [str] is a [string]; its characters stand for code points
      below 256;
    - float64 values are exact rationals [Q]: floating point rounding and
      infinities are not modelled;
    - [int] is NumPy's 64-bit integer, as on Linux and macOS: [astype(int)]
      raises OverflowError on a Python integer above the range and turns a
      float outside the range into the least 64-bit integer (what the
      conversion of x86-64 processors gives), and arithmetic on the column
      wraps around;
    - [value_counts] sorts with NumPy's default sort, which is not stable:
      the sort is a parameter [sort] of the model, of which only
      [sorts_by_count] is assumed;
    - the columns that the scripts treat as text are given by the text of
      their fields, and their values are compared as text; whether
      [pd.read_csv] types the runtime and the genre column as text decides
      whether their [.str] accessor can be used;
    - a raised exception is a [Raise] result; log records are collected in
      order next to the result. *)

From Stdlib Require Import List String Ascii Bool Arith ZArith QArith Qround Lia.
From Stdlib Require Import Permutation Sorted OrderedTypeEx.
Import ListNotations.

Local Close Scope Q_scope.
Local Open Scope string_scope.
Local Open Scope list_scope.

(** ** Python built-ins *)

Module Py.

(** Exceptions the scripts can meet in the modelled code. *)
Inductive exn : Type :=
| ValueError
| KeyError
| AttributeError
| OverflowError.

Inductive result (A : Type) : Type :=
| Ok (a : A)
| Raise (e : exn).
Arguments Ok {A} a.
Arguments Raise {A} e.

(** [str.isspace] on one character (code points below 256): TAB, LF, VT, FF,
    CR, FS, GS, RS, US, SPACE, NEL and NBSP. *)
Definition isspace (c : ascii) : bool :=
  let n := nat_of_ascii c in
  (((9 <=? n) && (n <=? 13)) || ((28 <=? n) && (n <=? 32))
   || (n =? 133) || (n =? 160))%nat.

(** [s.lstrip()], [s.rstrip()] and [s.strip()]. *)
Fixpoint lstrip (s : string) : string :=
  match s with
  | EmptyString => EmptyString
  | String c s' => if isspace c then lstrip s' else s
  end.

Fixpoint rstrip (s : string) : string :=
  match s with
  | EmptyString => EmptyString
  | String c s' =>
      match rstrip s' with
      | EmptyString => if isspace c then EmptyString else String c EmptyString
      | t => String c t
      end
  end.

Definition strip (s : string) : string := rstrip (lstrip s).

(** [s.split(sep)] for a non-empty separator: the pieces between the
    leftmost, non-overlapping occurrences of [sep].  [split_go] returns the
    first piece and the later ones; [skip] counts the characters of a matched
    separator still to be passed over. *)
Fixpoint split_go (sep : string) (skip : nat) (s : string) : string * list string :=
  match s with
  | EmptyString => (EmptyString, [])
  | String c s' =>
      match skip with
      | S k => split_go sep k s'
      | O =>
          if prefix sep s
          then (EmptyString,
                let (h, t) := split_go sep (String.length sep - 1) s' in h :: t)
          else let (h, t) := split_go sep 0 s' in (String c h, t)
      end
  end.

Definition split (sep s : string) : list string :=
  let (h, t) := split_go sep 0 s in h :: t.

(** [sep.join(l)]. *)
Fixpoint join (sep : string) (l : list string) : string :=
  match l with
  | [] => EmptyString
  | [x] => x
  | x :: l' => x ++ sep ++ join sep l'
  end.

(** [sorted(l)] for a key order [leb]: a stable sort.  An element goes in
    front of the first element that is not smaller, so equal elements keep
    their order. *)
Section Sorting.
Context {A : Type} (leb : A -> A -> bool).

Fixpoint insert (x : A) (l : list A) : list A :=
  match l with
  | [] => [x]
  | y :: l' => if leb x y then x :: l else y :: insert x l'
  end.

Fixpoint sorted (l : list A) : list A :=
  match l with
  | [] => []
  | x :: l' => insert x (sorted l')
  end.
End Sorting.

(** [int(s)] for a string of decimal digits. *)
Definition is_digit (c : ascii) : bool :=
  let n := nat_of_ascii c in ((48 <=? n) && (n <=? 57))%nat.

Definition digit_value (c : ascii) : Z := (Z.of_nat (nat_of_ascii c) - 48)%Z.

Fixpoint int_acc (acc : Z) (s : string) : Z :=
  match s with
  | EmptyString => acc
  | String c s' => int_acc (10 * acc + digit_value c)%Z s'
  end.

Definition int (s : string) : Z := int_acc 0%Z s.

(** [re.search(r'(\d+)', s)]: the leftmost match of one or more digits; the
    greedy quantifier makes it the whole run. *)
Fixpoint digit_run (s : string) : string :=
  match s with
  | EmptyString => EmptyString
  | String c s' => if is_digit c then String c (digit_run s') else EmptyString
  end.

Fixpoint search_digits (s : string) : option string :=
  match s with
  | EmptyString => None
  | String c s' => if is_digit c then Some (digit_run s) else search_digits s'
  end.

End Py.

(** ** Genre clean-up, [clean_genre] of imdb.py and the lambda of
    IMDB_data_analysis.py line 105 (the same expression):
    [", ".join(sorted([x.strip() for x in g.split(',')]))]. *)

Definition clean_genre (g : string) : string :=
  let parts := map Py.strip (Py.split "," g) in
  Py.join ", " (Py.sorted String.leb parts).


(** ** pandas operations used by the scripts

    A column is a list of cells in row order.  Text columns (title,
    certificate, runtime, genre, director) hold [option string], [None] being
    the missing value; the columns that the scripts coerce to numbers hold
    [cell]s. *)

Module Pd.
Import Py.

Inductive cell : Type :=
| NaN
| Str (s : string)
| Float (q : Q)
| Int (z : Z).

Definition isna (c : cell) : bool :=
  match c with NaN => true | _ => false end.

Definition is_str (c : cell) : bool :=
  match c with Str _ => true | _ => false end.

(** [col.dtype == 'object']: a column read from CSV is of object dtype when
    one of its values is text. *)
Definition dtype_is_object (col : list cell) : bool := existsb is_str col.

(** One element of [col.fillna(value)]. *)
Definition fillna (value c : cell) : cell := if isna c then value else c.

Definition fillna_text (value : string) (c : option string) : option string :=
  match c with None => Some value | Some _ => c end.

(** One element of [col.str.replace(pat, repl, regex=False)]; the [.str]
    methods give NaN on an element that is not text. *)
Definition replace (pat repl s : string) : string := join repl (split pat s).

Definition str_replace (pat repl : string) (c : cell) : cell :=
  match c with
  | Str s => Str (replace pat repl s)
  | _ => NaN
  end.

(** One element of [pd.to_numeric(col, errors='coerce')].  [parse] is the
    numeric-literal reader of pandas, which gives no value on text that is
    not a number. *)
Definition to_numeric (parse : string -> option Q) (c : cell) : cell :=
  match c with
  | Str s => match parse s with Some q => Float q | None => NaN end
  | _ => c
  end.

Definition as_float (c : cell) : option Q :=
  match c with
  | Float q => Some q
  | Int z => Some (inject_Z z)
  | _ => None
  end.

(** The values a reduction sees ([skipna=True]). *)
Definition numeric_values (col : list cell) : list Q :=
  flat_map (fun c => match as_float c with Some q => [q] | None => [] end) col.

(** [col.median()]: NaN on no value, the middle value of the sorted values,
    or the mean of the two middle ones. *)
Definition median (col : list cell) : cell :=
  let v := sorted Qle_bool (numeric_values col) in
  let n := List.length v in
  if (n =? 0)%nat then NaN
  else if Nat.odd n then Float (nth (n / 2) v 0%Q)
  else Float (Qred ((nth (n / 2 - 1) v 0%Q + nth (n / 2) v 0%Q) / 2)%Q).

(** [float] to [int]: truncation towards zero. *)
Definition truncate (q : Q) : Z :=
  if Qle_bool 0%Q q then Qfloor q else Qceiling q.

(** NumPy's [int64]: the integers from [int64_min] to [int64_max];
    arithmetic on them wraps around. *)
Definition int64_min : Z := (-9223372036854775808)%Z.

Definition int64_max : Z := 9223372036854775807%Z.

Definition in_int64 (z : Z) : bool := ((int64_min <=? z) && (z <=? int64_max))%Z.

Definition wrap64 (z : Z) : Z :=
  ((z + 9223372036854775808) mod 18446744073709551616 - 9223372036854775808)%Z.

(** The cast of a float64 to [int64]: truncation towards zero; a value
    outside the range comes out as the least integer. *)
Definition float_to_int64 (q : Q) : Z :=
  if in_int64 (truncate q) then truncate q else int64_min.

(** One element of [col.astype(int)]: NaN cannot be converted; a string of
    digits is read as a Python integer, which must fit [int64]. *)
Definition astype_int (c : cell) : result cell :=
  match c with
  | NaN => Raise ValueError
  | Float q => Ok (Int (float_to_int64 q))
  | Int z => Ok (Int z)
  | Str s =>
      if (negb (String.eqb s EmptyString) && String.eqb (digit_run s) s)%bool
      then if (int s <=? int64_max)%Z then Ok (Int (int s)) else Raise OverflowError
      else Raise ValueError
  end.

(** One element of [col.str.extract(r'(\d+)')]: the first group of the first
    match, NaN when there is no match or no text. *)
Definition str_extract_digits (c : option string) : cell :=
  match c with
  | Some s => match search_digits s with Some d => Str d | None => NaN end
  | None => NaN
  end.

(** All elements or the first exception. *)
Fixpoint traverse {A B : Type} (f : A -> result B) (l : list A) : result (list B) :=
  match l with
  | [] => Ok []
  | x :: l' =>
      match f x with
      | Raise e => Raise e
      | Ok y => match traverse f l' with
                | Raise e => Raise e
                | Ok ys => Ok (y :: ys)
                end
      end
  end.

(** [x // 10 * 10] on one element of an [int64] column: the product wraps
    around. *)
Definition decade (y : Z) : Z := wrap64 (y / 10 * 10).

(** The column it is applied to was cast to [int64] just before, so only
    integers occur in it; any other cell is left missing. *)
Definition floordiv10_mul10 (c : cell) : cell :=
  match c with
  | Int y => Int (decade y)
  | _ => NaN
  end.

(** The earliest greatest element: an element replaces a later one that is
    not greater. *)
Fixpoint first_max {A : Type} (leb : A -> A -> bool) (l : list A) : option A :=
  match l with
  | [] => None
  | x :: l' =>
      match first_max leb l' with
      | None => Some x
      | Some m => if leb m x then Some x else Some m
      end
  end.

(** [col.idxmax()] on a numeric column of labelled values: the label of the
    first greatest value, NaN skipped.  On an empty column it raises
    ValueError; on a column of NaN only, pandas 2 gives the NaN label
    ([None] here). *)
Definition labelled_values (s : list (nat * cell)) : list (nat * Q) :=
  flat_map (fun p => match as_float (snd p) with
                     | Some q => [(fst p, q)]
                     | None => []
                     end) s.

Definition idxmax (s : list (nat * cell)) : result (option nat) :=
  match s with
  | [] => Raise ValueError
  | _ => Ok (option_map fst
               (first_max (fun a b => Qle_bool (snd a) (snd b)) (labelled_values s)))
  end.

(** [col.value_counts()]: the hash table of counts, its keys in order of
    first appearance, then sorted by descending count; missing values are
    left out.  The sort is NumPy's default one, which is not stable: [sort]
    stands for it, and where labels of equal count end up is left to it. *)
Fixpoint incr (k : string) (t : list (string * nat)) : list (string * nat) :=
  match t with
  | [] => [(k, 1)]
  | (k', n) :: t' =>
      if String.eqb k k' then (k', S n) :: t' else (k', n) :: incr k t'
  end.

Definition tally (l : list string) : list (string * nat) :=
  fold_left (fun t k => incr k t) l [].

Definition dropna_text (col : list (option string)) : list string :=
  flat_map (fun c => match c with Some s => [s] | None => [] end) col.

Definition count_le (a b : string * nat) : bool := (snd a <=? snd b)%nat.

Definition value_counts (sort : list (string * nat) -> list (string * nat))
           (col : list (option string)) : list (string * nat) :=
  sort (tally (dropna_text col)).

(** [counts.idxmax()] on the result of [value_counts]: the label of the
    first greatest count. *)
Definition idxmax_counts (counts : list (string * nat)) : result string :=
  match first_max count_le counts with
  | None => Raise ValueError
  | Some p => Ok (fst p)
  end.

(** [col.str.split(sep).explode()]: every piece of every row, in row order; a
    missing value stays one missing value. *)
Definition str_split_explode (sep : string) (col : list (option string)) : list (option string) :=
  flat_map (fun c => match c with
                     | Some s => map Some (split sep s)
                     | None => [None]
                     end) col.

(** [df.drop_duplicates(subset=[key], keep='first')]: a row is dropped when
    its key was seen in an earlier row. *)
Section DropDuplicates.
Context {R K : Type} (eqb : K -> K -> bool) (key : R -> K).

Fixpoint drop_duplicates_go (seen : list K) (df : list R) : list R :=
  match df with
  | [] => []
  | r :: df' =>
      if existsb (eqb (key r)) seen
      then drop_duplicates_go seen df'
      else r :: drop_duplicates_go (key r :: seen) df'
  end.

Definition drop_duplicates (df : list R) : list R := drop_duplicates_go [] df.
End DropDuplicates.

End Pd.

(** ** The data frame of the scripts *)

(** One line of the CSV file.  Only the columns the modelled code reads are
    kept.  The columns that the scripts coerce to numbers are given as
    [pd.read_csv] delivers them; the others by the text of their fields,
    [None] for a missing one. *)
Module Csv.
Record line : Type := {
  Series_Title : option string;
  Released_Year : Pd.cell;
  Certificate : option string;
  Runtime : option string;
  Genre : option string;
  IMDB_Rating : Pd.cell;
  Director : option string;
  Gross : Pd.cell
}.
End Csv.

(** A row of [df]: its index label, the columns read, and the columns the
    scripts add (NaN until they are assigned). *)
Record row : Type := {
  index : nat;
  Series_Title : option string;
  Released_Year : Pd.cell;
  Certificate : option string;
  Runtime : option string;
  Genre : option string;
  IMDB_Rating : Pd.cell;
  Director : option string;
  Gross : Pd.cell;
  Runtime_Minutes : Pd.cell;
  Decade : Pd.cell;
  Num_Genres : Pd.cell
}.

Definition frame : Type := list row.

Definition load_line (i : nat) (l : Csv.line) : row :=
  {| index := i;
     Series_Title := Csv.Series_Title l;
     Released_Year := Csv.Released_Year l;
     Certificate := Csv.Certificate l;
     Runtime := Csv.Runtime l;
     Genre := Csv.Genre l;
     IMDB_Rating := Csv.IMDB_Rating l;
     Director := Csv.Director l;
     Gross := Csv.Gross l;
     Runtime_Minutes := Pd.NaN;
     Decade := Pd.NaN;
     Num_Genres := Pd.NaN |}.

(** [pd.read_csv]: the lines in file order, labelled 0, 1, 2, ... *)
Definition read_csv (data : list Csv.line) : frame :=
  map (fun p => load_line (fst p) (snd p)) (combine (seq 0 (List.length data)) data).

(** Column assignment, one row at a time. *)
Definition set_Released_Year (v : Pd.cell) (r : row) : row :=
  {| index := index r; Series_Title := Series_Title r; Released_Year := v;
     Certificate := Certificate r; Runtime := Runtime r; Genre := Genre r;
     IMDB_Rating := IMDB_Rating r; Director := Director r; Gross := Gross r;
     Runtime_Minutes := Runtime_Minutes r; Decade := Decade r;
     Num_Genres := Num_Genres r |}.

Definition set_Certificate (v : option string) (r : row) : row :=
  {| index := index r; Series_Title := Series_Title r;
     Released_Year := Released_Year r;
     Certificate := v; Runtime := Runtime r; Genre := Genre r;
     IMDB_Rating := IMDB_Rating r; Director := Director r; Gross := Gross r;
     Runtime_Minutes := Runtime_Minutes r; Decade := Decade r;
     Num_Genres := Num_Genres r |}.

Definition set_Genre (v : option string) (r : row) : row :=
  {| index := index r; Series_Title := Series_Title r;
     Released_Year := Released_Year r;
     Certificate := Certificate r; Runtime := Runtime r; Genre := v;
     IMDB_Rating := IMDB_Rating r; Director := Director r; Gross := Gross r;
     Runtime_Minutes := Runtime_Minutes r; Decade := Decade r;
     Num_Genres := Num_Genres r |}.

Definition set_IMDB_Rating (v : Pd.cell) (r : row) : row :=
  {| index := index r; Series_Title := Series_Title r;
     Released_Year := Released_Year r;
     Certificate := Certificate r; Runtime := Runtime r; Genre := Genre r;
     IMDB_Rating := v; Director := Director r; Gross := Gross r;
     Runtime_Minutes := Runtime_Minutes r; Decade := Decade r;
     Num_Genres := Num_Genres r |}.

Definition set_Gross (v : Pd.cell) (r : row) : row :=
  {| index := index r; Series_Title := Series_Title r;
     Released_Year := Released_Year r;
     Certificate := Certificate r; Runtime := Runtime r; Genre := Genre r;
     IMDB_Rating := IMDB_Rating r; Director := Director r; Gross := v;
     Runtime_Minutes := Runtime_Minutes r; Decade := Decade r;
     Num_Genres := Num_Genres r |}.

Definition set_Runtime_Minutes (v : Pd.cell) (r : row) : row :=
  {| index := index r; Series_Title := Series_Title r;
     Released_Year := Released_Year r;
     Certificate := Certificate r; Runtime := Runtime r; Genre := Genre r;
     IMDB_Rating := IMDB_Rating r; Director := Director r; Gross := Gross r;
     Runtime_Minutes := v; Decade := Decade r;
     Num_Genres := Num_Genres r |}.

Definition set_Decade (v : Pd.cell) (r : row) : row :=
  {| index := index r; Series_Title := Series_Title r;
     Released_Year := Released_Year r;
     Certificate := Certificate r; Runtime := Runtime r; Genre := Genre r;
     IMDB_Rating := IMDB_Rating r; Director := Director r; Gross := Gross r;
     Runtime_Minutes := Runtime_Minutes r; Decade := v;
     Num_Genres := Num_Genres r |}.

Definition set_Num_Genres (v : Pd.cell) (r : row) : row :=
  {| index := index r; Series_Title := Series_Title r;
     Released_Year := Released_Year r;
     Certificate := Certificate r; Runtime := Runtime r; Genre := Genre r;
     IMDB_Rating := IMDB_Rating r; Director := Director r; Gross := Gross r;
     Runtime_Minutes := Runtime_Minutes r; Decade := Decade r;
     Num_Genres := v |}.

(** Null tests naming the columns of a [dropna] subset. *)
Definition isnull_text (col : row -> option string) (r : row) : bool :=
  match col r with None => true | Some _ => false end.

Definition isnull_cell (col : row -> Pd.cell) (r : row) : bool := Pd.isna (col r).

(** [df.dropna(subset=[...], inplace=True)]: the rows with no missing value
    in the columns of the subset. *)
Definition dropna (subset : list (row -> bool)) (df : frame) : frame :=
  filter (fun r => negb (existsb (fun isnull => isnull r) subset)) df.

Definition option_string_eqb (a b : option string) : bool :=
  match a, b with
  | Some x, Some y => String.eqb x y
  | None, None => true
  | _, _ => false
  end.

(** [df.loc[label]] for the label that [idxmax] returned. *)
Definition loc (df : frame) (label : option nat) : Py.result row :=
  match label with
  | None => Py.Raise Py.KeyError
  | Some i =>
      match find (fun r => (index r =? i)%nat) df with
      | Some r => Py.Ok r
      | None => Py.Raise Py.KeyError
      end
  end.

(** ** Logging and exceptions *)

(** The records the modelled code hands to [logging], by call site. *)
Inductive log_record : Type :=
| Info_filled_gross (median_gross : Pd.cell)
| Info_cleaning_complete
| Info_key_insights
| Info_highest_grossing (title : option string) (gross : Pd.cell)
| Info_most_common_genre (genre : string)
| Info_top_director (director : string)
| Info_basic_statistics
| Warning_no_highest_grossing
| Warning_no_most_common_genre.

(** A computation: the records logged, then a value or the exception that
    ended it. *)
Definition M (A : Type) : Type := list log_record * Py.result A.

Definition ret {A : Type} (a : A) : M A := ([], Py.Ok a).

Definition bind {A B : Type} (m : M A) (k : A -> M B) : M B :=
  match m with
  | (l, Py.Ok a) => let (l', r) := k a in (l ++ l', r)
  | (l, Py.Raise e) => (l, Py.Raise e)
  end.

Definition log (r : log_record) : M unit := ([r], Py.Ok tt).

Definition lift {A : Type} (r : Py.result A) : M A := ([], r).

(** [try: body  except <caught>: handler]. *)
Definition try_except (body : M unit) (caught : Py.exn -> bool) (handler : M unit) : M unit :=
  match body with
  | (l, Py.Ok _) => (l, Py.Ok tt)
  | (l, Py.Raise e) =>
      if caught e then let (l', r) := handler in (l ++ l', r) else (l, Py.Raise e)
  end.

Notation "x <- m ;; k" := (bind m (fun x => k))
  (at level 61, m at next level, right associativity).
Notation "m ;;; k" := (bind m (fun _ => k))
  (at level 61, right associativity).

(** ** Steps shared by the two scripts (the same source lines in both) *)

(** [parse] is the numeric-literal reader of pandas and [sort] the sort by
    descending count that [value_counts] applies. *)
Section Shared.
Variable parse : string -> option Q.
Variable sort : list (string * nat) -> list (string * nat).

(** The dtype that [pd.read_csv] gives a column of fields: object, the
    dtype of text, when some field is not read as a number, and also when
    the file has no line; a column whose fields are all numbers or missing
    is numeric (float64 when all are missing).  [parse] is taken to read
    what [pd.read_csv] reads as a number (truth values, which it types too,
    are left aside).  The dtype stays when rows are dropped. *)
Definition numeric_field (c : option string) : bool :=
  match c with
  | Some s => match parse s with Some _ => true | None => false end
  | None => true
  end.

Definition read_as_object (col : list (option string)) : bool :=
  match col with
  | [] => true
  | _ => negb (forallb numeric_field col)
  end.

(** [df['Certificate'] = df['Certificate'].fillna('Not Rated')]. *)
Definition fill_Certificate (df : frame) : frame :=
  map (fun r => set_Certificate (Pd.fillna_text "Not Rated" (Certificate r)) r) df.

(** Separator stripping (only on an object column) and numeric
    coercion of [Gross]. *)
Definition coerce_Gross (df : frame) : frame :=
  let df :=
    if Pd.dtype_is_object (map Gross df)
    then map (fun r => set_Gross (Pd.str_replace "," "" (Gross r)) r) df
    else df in
  map (fun r => set_Gross (Pd.to_numeric parse (Gross r)) r) df.

(** [df['Gross'].fillna(median_gross)], assigned back. *)
Definition fill_Gross (median_gross : Pd.cell) (df : frame) : frame :=
  map (fun r => set_Gross (Pd.fillna median_gross (Gross r)) r) df.

(** Numeric coercion of [Released_Year], rows without a year dropped, the
    rest cast to [int]. *)
Definition process_Released_Year (df : frame) : Py.result frame :=
  let df := map (fun r => set_Released_Year (Pd.to_numeric parse (Released_Year r)) r) df in
  let df := dropna [isnull_cell Released_Year] df in
  Pd.traverse
    (fun r => match Pd.astype_int (Released_Year r) with
              | Py.Ok y => Py.Ok (set_Released_Year y r)
              | Py.Raise e => Py.Raise e
              end) df.

(** [df['Runtime'].str.extract(r'(\d+)')] cast to [int] and assigned to
    [Runtime_Minutes].  [Runtime_object] tells whether the column was read
    as text: on a numeric column [.str] raises AttributeError. *)
Definition extract_Runtime_Minutes (Runtime_object : bool) (df : frame) : Py.result frame :=
  if Runtime_object
  then Pd.traverse
         (fun r => match Pd.astype_int (Pd.str_extract_digits (Runtime r)) with
                   | Py.Ok m => Py.Ok (set_Runtime_Minutes m r)
                   | Py.Raise e => Py.Raise e
                   end) df
  else Py.Raise Py.AttributeError.

(** [df['Decade'] = (df['Released_Year'] // 10) * 10]. *)
Definition assign_Decade (df : frame) : frame :=
  map (fun r => set_Decade (Pd.floordiv10_mul10 (Released_Year r)) r) df.

(** [df['Genre'] = df['Genre'].apply(clean_genre)]; a missing genre is a
    float, which has no [split], and so is every element of a column that
    was not read as text ([Genre_object] false): a float or an integer. *)
Definition apply_clean_genre (Genre_object : bool) (df : frame) : Py.result frame :=
  Pd.traverse
    (fun r => match (if Genre_object then Genre r else None) with
              | Some g => Py.Ok (set_Genre (Some (clean_genre g)) r)
              | None => Py.Raise Py.AttributeError
              end) df.

(** [df.drop_duplicates(subset=['Series_Title'], keep='first')]. *)
Definition drop_duplicate_titles (df : frame) : frame :=
  Pd.drop_duplicates option_string_eqb Series_Title df.

(** [df.loc[df['Gross'].idxmax()]]. *)
Definition highest_gross_row (df : frame) : Py.result row :=
  match Pd.idxmax (map (fun r => (index r, Gross r)) df) with
  | Py.Ok label => loc df label
  | Py.Raise e => Py.Raise e
  end.

(** [df['Genre'].str.split(', ').explode().value_counts().idxmax()]. *)
Definition most_common_genre_of (df : frame) : Py.result string :=
  Pd.idxmax_counts (Pd.value_counts sort (Pd.str_split_explode ", " (map Genre df))).

(** [df['Director'].value_counts().idxmax()]. *)
Definition top_director_of (df : frame) : Py.result string :=
  Pd.idxmax_counts (Pd.value_counts sort (map Director df)).
End Shared.

(** ** IMDB_data_analysis.py, [main] from line 78 to line 121 *)

Module IMDB_data_analysis.
Section Main.
Variable parse : string -> option Q.
Variable sort : list (string * nat) -> list (string * nat).

(** Lines 82-88. *)
Definition process_Gross (df : frame) : M frame :=
  let df := coerce_Gross parse df in
  let median_gross := Pd.median (map Gross df) in
  let df := fill_Gross median_gross df in
  log (Info_filled_gross median_gross) ;;;
  ret df.

(** Line 91. *)
Definition drop_critical (df : frame) : frame :=
  dropna [isnull_text Genre; isnull_text Director; isnull_text Series_Title;
          isnull_cell Released_Year] df.

(** Lines 78-96, "Data Loading and Cleaning" after the load. *)
Definition clean (df : frame) : M frame :=
  let df := fill_Certificate df in
  df <- process_Gross df ;;
  let df := drop_critical df in
  lift (process_Released_Year parse df).

(** Lines 99-109, "Feature Engineering".  [Runtime_object] and
    [Genre_object] tell whether these columns were read as text. *)
Definition feature_engineering (Runtime_object Genre_object : bool) (df : frame) : M frame :=
  df <- lift (extract_Runtime_Minutes Runtime_object df) ;;
  let df := assign_Decade df in
  df <- lift (apply_clean_genre Genre_object df) ;;
  let df := drop_duplicate_titles df in
  log Info_cleaning_complete ;;;
  ret df.

(** Lines 112-121, "Data Storytelling & Insights". *)
Definition insights (df : frame) : M unit :=
  log Info_key_insights ;;;
  highest_gross_movie <- lift (highest_gross_row df) ;;
  log (Info_highest_grossing (Series_Title highest_gross_movie)
                             (Gross highest_gross_movie)) ;;;
  most_common_genre <- lift (most_common_genre_of sort df) ;;
  log (Info_most_common_genre most_common_genre) ;;;
  top_director <- lift (top_director_of sort df) ;;
  log (Info_top_director top_director).

Definition main (data : list Csv.line) : M frame :=
  let df := read_csv data in
  let Runtime_object := read_as_object parse (map Csv.Runtime data) in
  let Genre_object := read_as_object parse (map Csv.Genre data) in
  df <- clean df ;;
  df <- feature_engineering Runtime_object Genre_object df ;;
  insights df ;;;
  ret df.
End Main.
End IMDB_data_analysis.

(** ** imdb.py, [main] from line 77 to line 134.  Line 102 (one-hot encoding
    of [Certificate]) replaces that column by flag columns and touches no row
    and no other column; it is left out. *)

Module imdb.
Section Main.
Variable parse : string -> option Q.
Variable sort : list (string * nat) -> list (string * nat).

(** Lines 81-85; the fill is taken to act on [df] in place. *)
Definition process_Gross (df : frame) : M frame :=
  let df := coerce_Gross parse df in
  let median_gross := Pd.median (map Gross df) in
  ret (fill_Gross median_gross df).

(** Line 88. *)
Definition drop_critical (df : frame) : frame :=
  dropna [isnull_text Genre; isnull_text Director; isnull_text Series_Title] df.

(** Lines 77-93. *)
Definition clean (df : frame) : M frame :=
  let df := fill_Certificate df in
  df <- process_Gross df ;;
  let df := drop_critical df in
  lift (process_Released_Year parse df).

(** Line 96: [df['Genre'].str.split(',').str.len()].  On a [Genre] column
    that was not read as text ([Genre_object] false) [.str] raises
    AttributeError. *)
Definition assign_Num_Genres (Genre_object : bool) (df : frame) : Py.result frame :=
  if Genre_object
  then Py.Ok (map (fun r => set_Num_Genres
                              match Genre r with
                              | Some g => Pd.Int (Z.of_nat (List.length (Py.split "," g)))
                              | None => Pd.NaN
                              end r) df)
  else Py.Raise Py.AttributeError.

(** Lines 111-113: the four numeric columns coerced once more. *)
Definition ensure_numeric (df : frame) : frame :=
  map (fun r =>
         let r := set_IMDB_Rating (Pd.to_numeric parse (IMDB_Rating r)) r in
         let r := set_Runtime_Minutes (Pd.to_numeric parse (Runtime_Minutes r)) r in
         let r := set_Gross (Pd.to_numeric parse (Gross r)) r in
         set_Released_Year (Pd.to_numeric parse (Released_Year r)) r) df.

(** Lines 96-119.  [Runtime_object] and [Genre_object] tell whether these
    columns were read as text. *)
Definition feature_extraction (Runtime_object Genre_object : bool) (df : frame) : M frame :=
  df <- lift (assign_Num_Genres Genre_object df) ;;
  df <- lift (extract_Runtime_Minutes Runtime_object df) ;;
  let df := assign_Decade df in
  df <- lift (apply_clean_genre Genre_object df) ;;
  let df := ensure_numeric df in
  let df := drop_duplicate_titles df in
  log Info_basic_statistics ;;;
  ret df.

Definition is_ValueError (e : Py.exn) : bool :=
  match e with Py.ValueError => true | _ => false end.

(** Lines 122-134. *)
Definition insights (df : frame) : M unit :=
  try_except
    (highest_gross <- lift (highest_gross_row df) ;;
     log (Info_highest_grossing (Series_Title highest_gross) (Gross highest_gross)))
    is_ValueError
    (log Warning_no_highest_grossing) ;;;
  try_except
    (most_common_genre <- lift (most_common_genre_of sort df) ;;
     log (Info_most_common_genre most_common_genre))
    (fun _ => true)
    (log Warning_no_most_common_genre).

Definition main (data : list Csv.line) : M frame :=
  let df := read_csv data in
  let Runtime_object := read_as_object parse (map Csv.Runtime data) in
  let Genre_object := read_as_object parse (map Csv.Genre data) in
  df <- clean df ;;
  df <- feature_extraction Runtime_object Genre_object df ;;
  insights df ;;;
  ret df.
End Main.
End imdb.

(** ** Concrete data for running the model *)

(** A reader of plain unsigned decimal integers, standing for pandas'
    numeric-literal reader when the model is run on concrete data. *)
Definition parse_decimal (s : string) : option Q :=
  if (negb (String.eqb s EmptyString) && String.eqb (Py.digit_run s) s)%bool
  then Some (inject_Z (Py.int s))
  else None.

(** Two sorts by descending count, for running the model: the first leaves
    labels of equal count in the order given, the second reverses them. *)
Definition count_ge (a b : string * nat) : bool := (snd b <=? snd a)%nat.

Definition count_gt (a b : string * nat) : bool := (snd b <? snd a)%nat.

Definition sort_keeping_ties : list (string * nat) -> list (string * nat) :=
  Py.sorted count_ge.

Definition sort_reversing_ties : list (string * nat) -> list (string * nat) :=
  Py.sorted count_gt.

Definition movie (title year certificate runtime genre director gross : option string) : Csv.line :=
  let text (c : option string) : Pd.cell :=
    match c with Some s => Pd.Str s | None => Pd.NaN end in
  {| Csv.Series_Title := title;
     Csv.Released_Year := text year;
     Csv.Certificate := certificate;
     Csv.Runtime := runtime;
     Csv.Genre := genre;
     Csv.IMDB_Rating := Pd.Float (17 # 2);
     Csv.Director := director;
     Csv.Gross := text gross |}.

(** ** Vocabulary of the statements *)

Definition comma : ascii := ","%char.

Fixpoint no_comma (s : string) : Prop :=
  match s with
  | EmptyString => True
  | String c s' => c <> comma /\ no_comma s'
  end.

Definition no_lead (s : string) : Prop :=
  match s with
  | EmptyString => True
  | String c _ => Py.isspace c = false
  end.

Fixpoint no_digit (s : string) : Prop :=
  match s with
  | EmptyString => True
  | String c s' => Py.is_digit c = false /\ no_digit s'
  end.

Fixpoint only_digits (s : string) : Prop :=
  match s with
  | EmptyString => True
  | String c s' => Py.is_digit c = true /\ only_digits s'
  end.

Definition run_ends (post : string) : Prop :=
  match post with
  | EmptyString => True
  | String c _ => Py.is_digit c = false
  end.

(** [run] is the first maximal run of decimal digits of [s]. *)
Definition first_digit_run (s run : string) : Prop :=
  exists pre post : string,
    s = (pre ++ run ++ post)%string /\
    no_digit pre /\ only_digits run /\ run <> EmptyString /\ run_ends post.

(** [m] is the median of the values [v]: the middle one in sorted order, or
    the mean of the two middle ones. *)
Definition is_median (v : list Q) (m : Q) : Prop :=
  exists s : list Q,
    Permutation s v /\ LocallySorted Qle s /\
    let n := List.length s in
    n <> 0 /\
    if Nat.odd n then m = nth (n / 2) s 0%Q
    else (m == (nth (n / 2 - 1) s 0 + nth (n / 2) s 0) / 2)%Q.

(** The log of the gross step holds a record other than the notice that
    missing values were filled. *)
Definition reports_empty_gross_column (l : list log_record) : Prop :=
  exists r, In r l /\ match r with Info_filled_gross _ => False | _ => True end.

(** [l1] is [l2] with some elements left out, the others in their order. *)
Inductive subseq {A : Type} : list A -> list A -> Prop :=
| subseq_nil : subseq [] []
| subseq_skip (x : A) (l1 l2 : list A) : subseq l1 l2 -> subseq l1 (x :: l2)
| subseq_keep (x : A) (l1 l2 : list A) : subseq l1 l2 -> subseq (x :: l1) (x :: l2).

(** The identity of a row: its index label and its title. *)
Definition row_key (r : row) : nat * option string := (index r, Series_Title r).

(** What the cleaning promises of a row. *)
Definition cleaned_row (r : row) : Prop :=
  Certificate r <> None /\ Genre r <> None /\ Director r <> None /\
  Series_Title r <> None /\ exists y : Z, Released_Year r = Pd.Int y.

(** The rows that the cleaning keeps: genre, director and title present and a
    release year that reads as a number. *)
Definition complete_row (parse : string -> option Q) (r : row) : bool :=
  negb (isnull_text Genre r) && negb (isnull_text Director r)
  && negb (isnull_text Series_Title r)
  && negb (Pd.isna (Pd.to_numeric parse (Released_Year r))).

Definition has_year (parse : string -> option Q) (r : row) : bool :=
  negb (Pd.isna (Pd.to_numeric parse (Released_Year r))).

Definition year_value (c : Pd.cell) : Z :=
  match c with
  | Pd.Float q => Pd.float_to_int64 q
  | Pd.Int z => z
  | _ => 0%Z
  end.

Definition cast_year (parse : string -> option Q) (r : row) : row :=
  set_Released_Year (Pd.Int (year_value (Pd.to_numeric parse (Released_Year r)))) r.

(** The frame before the rows are filtered: certificates and gross repaired. *)
Definition repaired (parse : string -> option Q) (df : frame) : frame :=
  fill_Gross (Pd.median (map Gross (coerce_Gross parse (fill_Certificate df))))
             (coerce_Gross parse (fill_Certificate df)).

Definition result_map {A B : Type} (f : A -> B) (x : Py.result A) : Py.result B :=
  match x with
  | Py.Ok a => Py.Ok (f a)
  | Py.Raise e => Py.Raise e
  end.

(** Two rows that stem from the same line and agree on what the feature
    blocks read. *)
Definition same_source (r r' : row) : Prop :=
  index r' = index r /\ Series_Title r' = Series_Title r /\
  Runtime r' = Runtime r /\ Genre r' = Genre r.

(** Two results that fail alike or succeed with related values. *)
Definition agree {A B : Type} (R : A -> B -> Prop) (x : Py.result A) (y : Py.result B) : Prop :=
  match x, y with
  | Py.Ok a, Py.Ok b => R a b
  | Py.Raise e, Py.Raise e' => e = e'
  | _, _ => False
  end.

(** What the model assumes of the sort of [value_counts]: it rearranges the
    table and leaves greater counts first. *)
Definition sorts_by_count (sort : list (string * nat) -> list (string * nat)) : Prop :=
  forall t : list (string * nat),
    Permutation (sort t) t /\ StronglySorted (fun a b => snd b <= snd a) (sort t).

(** How often [k] occurs among [tokens]. *)
Definition occurrences (tokens : list string) (k : string) : nat :=
  count_occ string_dec tokens k.

(** The count recorded for [k] in a table of counts. *)
Fixpoint recorded (k : string) (t : list (string * nat)) : nat :=
  match t with
  | [] => 0
  | (k', n) :: t' => if String.eqb k k' then n else recorded k t'
  end.

Definition tally_from (acc : list (string * nat)) (l : list string) : list (string * nat) :=
  fold_left (fun t k => Pd.incr k t) l acc.

(** ** Sample frames *)

(** Two films, neither with a gross that reads as a number. *)
Definition all_gross_missing : frame :=
  read_csv [movie (Some "Heat") (Some "1995") None (Some "170 min")
                  (Some "Crime") (Some "Michael Mann") None;
            movie (Some "Ran") (Some "1985") None (Some "162 min")
                  (Some "Drama") (Some "Akira Kurosawa") (Some "unknown")].

(** Four films, the third without a gross. *)
Definition gross_sample : frame :=
  read_csv [movie None None None None None None (Some "1,000");
            movie None None None None None None (Some "2,000");
            movie None None None None None None None;
            movie None None None None None None (Some "3,000")].

(** One film without a genre: the cleaning leaves no row. *)
Definition no_genre_data : list Csv.line :=
  [movie (Some "Heat") (Some "1995") (Some "R") (Some "170 min")
         None (Some "Michael Mann") (Some "67,436,818")].

(** Rows that only carry a runtime. *)
Definition runtime_rows (l : list string) : frame :=
  read_csv (map (fun t => movie None None None (Some t) None None None) l).

(** Rows that only carry a genre. *)
Definition genre_rows (l : list string) : frame :=
  read_csv (map (fun g => movie None None None None (Some g) None None) l).

(** Rows that only carry a release year. *)
Definition year_rows (l : list string) : frame :=
  read_csv (map (fun y => movie None (Some y) None None None None None) l).

(** Two films with every field as expected. *)
Definition two_films : list Csv.line :=
  [movie (Some "Heat") (Some "1995") (Some "R") (Some "170 min")
         (Some "Crime, Drama") (Some "Michael Mann") (Some "67,436,818");
   movie (Some "Ran") (Some "1985") (Some "R") (Some "162 min")
         (Some "Drama, Action") (Some "Akira Kurosawa") (Some "4,135,750")].

(** Two films whose runtime fields are plain numbers: the column is read as
    integers. *)
Definition numeric_runtime_data : list Csv.line :=
  [movie (Some "Heat") (Some "1995") (Some "R") (Some "170")
         (Some "Crime") (Some "Michael Mann") (Some "67,436,818");
   movie (Some "Ran") (Some "1985") (Some "R") (Some "162")
         (Some "Drama") (Some "Akira Kurosawa") (Some "4,135,750")].

(** Two films, the second with a run of twenty digits in its runtime. *)
Definition long_runtime_data : list Csv.line :=
  [movie (Some "Heat") (Some "1995") (Some "R") (Some "170 min")
         (Some "Crime") (Some "Michael Mann") (Some "67,436,818");
   movie (Some "Ran") (Some "1985") (Some "R") (Some "99999999999999999999 min")
         (Some "Drama") (Some "Akira Kurosawa") (Some "4,135,750")].

(** ** Further code: prompt and tables *)

(** ** The path prompt, [get_csv_path] of both scripts *)

(** What one call of [input()] yields: a line of text, or KeyboardInterrupt.
    The end of the list is the end of standard input (EOFError). *)
Inductive stdin_event : Type :=
| Line (s : string)
| Interrupt.

(** The records [get_csv_path] logs. *)
Inductive path_record : Type :=
| Error_csv_not_found (path : string)
| Error_input_interrupted
| Info_found_csv (path : string).

(** How a function that may call [sys.exit] ends. *)
Inductive outcome (A : Type) : Type :=
| Returned (a : A)
| Exited (code : Z).
Arguments Returned {A} a.
Arguments Exited {A} code.

(** IMDB_data_analysis.py lines 18-32: [while not os.path.isfile(path)]. *)
Fixpoint IMDB_data_analysis_get_csv_path (isfile : string -> bool) (path : string)
         (stdin : list stdin_event) {struct stdin} : list path_record * outcome string :=
  if negb (isfile path)
  then match stdin with
       | Line s :: rest =>
           let (l, r) := IMDB_data_analysis_get_csv_path isfile (Py.strip s) rest in
           (Error_csv_not_found path :: l, r)
       | _ => ([Error_csv_not_found path; Error_input_interrupted], Exited 1%Z)
       end
  else ([Info_found_csv path], Returned path).

(** imdb.py lines 19-33: [while True] with the test inside. *)
Fixpoint imdb_get_csv_path (isfile : string -> bool) (path : string)
         (stdin : list stdin_event) {struct stdin} : list path_record * outcome string :=
  if isfile path
  then ([Info_found_csv path], Returned path)
  else match stdin with
       | Line s :: rest =>
           let (l, r) := imdb_get_csv_path isfile (Py.strip s) rest in
           (Error_csv_not_found path :: l, r)
       | _ => ([Error_csv_not_found path; Error_input_interrupted], Exited 1%Z)
       end.

(** The paths typed before the first interrupt, trimmed. *)
Fixpoint typed_paths (stdin : list stdin_event) : list string :=
  match stdin with
  | Line s :: rest => Py.strip s :: typed_paths rest
  | _ => []
  end.

(** The paths of [l] before the first one that is a file. *)
Fixpoint rejected (isfile : string -> bool) (l : list string) : list string :=
  match l with
  | [] => []
  | p :: l' => if isfile p then [] else p :: rejected isfile l'
  end.

(** How many commas a string holds. *)
Fixpoint count_commas (s : string) : nat :=
  match s with
  | EmptyString => 0
  | String c s' => (if Ascii.eqb c comma then 1 else 0) + count_commas s'
  end.

(** The pieces of a genre string, trimmed and sorted. *)
Definition genre_pieces (g : string) : list string :=
  Py.sorted String.leb (map Py.strip (Py.split "," g)).

(** What the feature steps promise of a row of the final frame. *)
Definition enriched_row (r : row) : Prop :=
  exists (y m : Z) (g : string),
    Released_Year r = Pd.Int y /\ Decade r = Pd.Int (Pd.decade y) /\
    Runtime_Minutes r = Pd.Int m /\ (0 <= m <= Pd.int64_max)%Z /\
    Genre r = Some g /\ clean_genre g = g.

(** The genre count of a row agrees with the tokens of its genre string. *)
Definition genre_counted (r : row) : Prop :=
  exists g : string,
    Genre r = Some g /\
    Num_Genres r = Pd.Int (Z.of_nat (List.length (Py.split ", " g))) /\
    Num_Genres r = Pd.Int (Z.of_nat (S (count_commas g))).

(** A row between the steps: year cast, runtime extracted, decade assigned,
    genre present but perhaps not yet normalised. *)
Definition half_enriched (r : row) : Prop :=
  exists (y m : Z) (g : string),
    Released_Year r = Pd.Int y /\ Decade r = Pd.Int (Pd.decade y) /\
    Runtime_Minutes r = Pd.Int m /\ (0 <= m <= Pd.int64_max)%Z /\ Genre r = Some g.

(** The genre count before the genre is normalised. *)
Definition raw_genre_counted (r : row) : Prop :=
  forall g, Genre r = Some g ->
            Num_Genres r = Pd.Int (Z.of_nat (S (count_commas g))).

(** imdb.py line 151: [df['Genre'].str.split(', ').explode().value_counts()]. *)
Definition genre_counts (sort : list (string * nat) -> list (string * nat))
           (df : frame) : list (string * nat) :=
  Pd.value_counts sort (Pd.str_split_explode ", " (map Genre df)).

(** imdb.py line 176: [df['Director'].value_counts()]. *)
Definition director_counts (sort : list (string * nat) -> list (string * nat))
           (df : frame) : list (string * nat) :=
  Pd.value_counts sort (map Director df).

(** [counts.head(n)]. *)
Definition head_counts (n : nat) (counts : list (string * nat)) : list (string * nat) :=
  firstn n counts.

(** [counts] ranks the labels of [tokens]: every label once, with the number
    of its occurrences, greater counts first. *)
Definition ranks (tokens : list string) (counts : list (string * nat)) : Prop :=
  NoDup (map fst counts) /\
  (forall k c, In (k, c) counts <-> In k tokens /\ c = occurrences tokens k) /\
  StronglySorted (fun a b => snd b <= snd a) counts.

(** The labelled gross value of a row, when it has one. *)
Definition labelled_gross (r : row) : list (nat * Q) :=
  match Pd.as_float (Gross r) with
  | Some q => [(index r, q)]
  | None => []
  end.

(** Four films with gross 1000, 2000, none and 3000, after coercion. *)
Definition gross_coerced_sample : frame := coerce_Gross parse_decimal gross_sample.

(** Rows that only carry a director. *)
Definition director_rows (l : list (option string)) : frame :=
  read_csv (map (fun d => movie None None None None None d None) l).

(** * Proofs *)

(** *** Facts on the string built-ins *)

Lemma split_go_comma_step (c : ascii) (s : string) :
  Py.split_go "," 0 (String c s) =
  if Ascii.eqb c comma
  then (EmptyString, let (h, t) := Py.split_go "," 0 s in h :: t)
  else let (h, t) := Py.split_go "," 0 s in (String c h, t).
Proof.
  cbn [Py.split_go prefix String.length Nat.sub]. unfold comma.
  destruct (ascii_dec ","%char c) as [<- | Hne].
  - rewrite Ascii.eqb_refl. now destruct s.
  - destruct (Ascii.eqb_spec c ","%char) as [-> | _]; [now elim Hne | reflexivity].
Qed.

Lemma split_go_no_comma (t : string) :
  no_comma t -> Py.split_go "," 0 t = (t, []).
Proof.
  induction t as [| c t IH]; [reflexivity |].
  intros [Hc Ht]. rewrite split_go_comma_step, (IH Ht).
  now destruct (Ascii.eqb_spec c comma).
Qed.

Lemma split_go_piece_then_comma (t r : string) :
  no_comma t ->
  Py.split_go "," 0 (t ++ String comma r)%string =
  (t, let (h, tl) := Py.split_go "," 0 r in h :: tl).
Proof.
  induction t as [| c t IH]; intros Ht.
  - cbn [append]. rewrite split_go_comma_step. now rewrite Ascii.eqb_refl.
  - destruct Ht as [Hc Ht]. cbn [append].
    rewrite split_go_comma_step, (IH Ht).
    now destruct (Ascii.eqb_spec c comma).
Qed.

Lemma split_join_comma (t : string) (ts : list string) :
  Forall no_comma (t :: ts) ->
  Py.split "," (Py.join ", " (t :: ts)) = t :: map (String " "%char) ts.
Proof.
  revert t. induction ts as [| u ts IH]; intros t H.
  - unfold Py.split. cbn [Py.join]. rewrite split_go_no_comma; [reflexivity |].
    now inversion H.
  - inversion H as [| ? ? Ht Hts]; subst.
    specialize (IH u Hts). unfold Py.split in *.
    change (Py.join ", " (t :: u :: ts))
      with (t ++ String comma (String " "%char (Py.join ", " (u :: ts))))%string.
    rewrite (split_go_piece_then_comma _ _ Ht).
    rewrite split_go_comma_step. cbn [Ascii.eqb Bool.eqb andb comma].
    destruct (Py.split_go "," 0 (Py.join ", " (u :: ts))) as [h tl].
    injection IH as -> ->. reflexivity.
Qed.

Lemma split_go_pieces_no_comma (s : string) :
  no_comma (fst (Py.split_go "," 0 s)) /\ Forall no_comma (snd (Py.split_go "," 0 s)).
Proof.
  induction s as [| c s [IH1 IH2]]; [now split |].
  rewrite split_go_comma_step.
  destruct (Py.split_go "," 0 s) as [h t]; cbn [fst snd] in *.
  destruct (Ascii.eqb_spec c comma); cbn [fst snd]; split; cbn; auto.
Qed.

Lemma split_pieces_no_comma (s : string) : Forall no_comma (Py.split "," s).
Proof.
  unfold Py.split. pose proof (split_go_pieces_no_comma s) as [H1 H2].
  destruct (Py.split_go "," 0 s); now constructor.
Qed.

Lemma lstrip_no_comma (s : string) : no_comma s -> no_comma (Py.lstrip s).
Proof.
  induction s as [| c s IH]; [easy |].
  intros [Hc Hs]. cbn. destruct (Py.isspace c); [auto | now split].
Qed.

Lemma rstrip_no_comma (s : string) : no_comma s -> no_comma (Py.rstrip s).
Proof.
  induction s as [| c s IH]; [easy |].
  intros [Hc Hs]. cbn. specialize (IH Hs).
  destruct (Py.rstrip s); [destruct (Py.isspace c); cbn; auto | now split].
Qed.

Lemma strip_no_comma (s : string) : no_comma s -> no_comma (Py.strip s).
Proof. intros H. now apply rstrip_no_comma, lstrip_no_comma. Qed.

Lemma lstrip_no_lead (s : string) : no_lead (Py.lstrip s).
Proof.
  induction s as [| c s IH]; [exact I |].
  cbn. destruct (Py.isspace c) eqn:E; [exact IH | exact E].
Qed.

Lemma lstrip_fixed (s : string) : no_lead s -> Py.lstrip s = s.
Proof. destruct s as [| c s]; [reflexivity |]. cbn. now intros ->. Qed.

Lemma rstrip_no_lead (s : string) : no_lead s -> no_lead (Py.rstrip s).
Proof.
  destruct s as [| c s]; [easy |]. cbn. intros H.
  destruct (Py.rstrip s); [now rewrite H | exact H].
Qed.

Lemma rstrip_idempotent (s : string) : Py.rstrip (Py.rstrip s) = Py.rstrip s.
Proof.
  induction s as [| c s IH]; [reflexivity |].
  cbn [Py.rstrip]. destruct (Py.rstrip s) as [| d t] eqn:E.
  - destruct (Py.isspace c) eqn:Ec; [reflexivity |]. cbn. now rewrite Ec.
  - cbn [Py.rstrip]. cbn [Py.rstrip] in IH. now rewrite IH.
Qed.

Lemma strip_idempotent (s : string) : Py.strip (Py.strip s) = Py.strip s.
Proof.
  unfold Py.strip.
  rewrite (lstrip_fixed (Py.rstrip (Py.lstrip s))).
  - apply rstrip_idempotent.
  - apply rstrip_no_lead, lstrip_no_lead.
Qed.

Lemma strip_after_space (s : string) : Py.strip (String " "%char s) = Py.strip s.
Proof. reflexivity. Qed.

(** *** Facts on [sorted] *)

Section SortedFacts.
Context {A : Type} (leb : A -> A -> bool).
Hypothesis leb_total : forall a b, leb a b = true \/ leb b a = true.

Lemma insert_Forall (P : A -> Prop) (x : A) (l : list A) :
  P x -> Forall P l -> Forall P (Py.insert leb x l).
Proof.
  intros Hx. induction 1 as [| y l Hy Hl IH]; cbn.
  - now constructor.
  - destruct (leb x y); repeat constructor; auto.
Qed.

Lemma sorted_Forall (P : A -> Prop) (l : list A) :
  Forall P l -> Forall P (Py.sorted leb l).
Proof.
  induction 1; cbn; [constructor | now apply insert_Forall].
Qed.

Lemma insert_not_nil (x : A) (l : list A) : Py.insert leb x l <> [].
Proof. destruct l as [| y l]; cbn; [easy | now destruct (leb x y)]. Qed.

Lemma sorted_not_nil (l : list A) : l <> [] -> Py.sorted leb l <> [].
Proof. destruct l; [easy | intros _; apply insert_not_nil]. Qed.

Lemma insert_LocallySorted (x : A) (l : list A) :
  LocallySorted (fun a b => leb a b = true) l -> LocallySorted (fun a b => leb a b = true) (Py.insert leb x l).
Proof.
  induction 1 as [| y | y z l Hl IH Hyz]; cbn.
  - constructor.
  - destruct (leb x y) eqn:E.
    + now repeat constructor.
    + repeat constructor. destruct (leb_total x y); [congruence | assumption].
  - destruct (leb x y) eqn:E.
    + now repeat constructor.
    + cbn in IH. destruct (leb x z) eqn:E'.
      * repeat constructor; auto.
        destruct (leb_total x y); [congruence | assumption].
      * now constructor.
Qed.

Lemma sorted_LocallySorted (l : list A) : LocallySorted (fun a b => leb a b = true) (Py.sorted leb l).
Proof.
  induction l; cbn; [constructor | now apply insert_LocallySorted].
Qed.

Lemma sorted_fixed (l : list A) : LocallySorted (fun a b => leb a b = true) l -> Py.sorted leb l = l.
Proof.
  induction 1 as [| y | y z l Hl IH Hyz]; [reflexivity | reflexivity |].
  cbn [Py.sorted] in *. rewrite IH. cbn. now rewrite Hyz.
Qed.
End SortedFacts.

Lemma digit_run_app (run post : string) :
  only_digits run -> run_ends post -> Py.digit_run (run ++ post) = run.
Proof.
  induction run as [| c run IH]; cbn [append].
  - intros _ H. destruct post; [reflexivity |]. cbn in *. now rewrite H.
  - intros [Hc Hr] Hp. cbn. rewrite Hc. f_equal. now apply IH.
Qed.

Lemma digit_run_only_digits (run : string) : only_digits run -> Py.digit_run run = run.
Proof.
  induction run as [| c run IH]; [reflexivity |].
  intros [Hc Hr]. cbn. rewrite Hc. f_equal. now apply IH.
Qed.

Lemma search_digits_first_run (s run : string) :
  first_digit_run s run -> Py.search_digits s = Some run.
Proof.
  intros (pre & post & -> & Hpre & Hrun & Hne & Hpost).
  induction pre as [| c pre IH]; cbn [append].
  - destruct run as [| d run]; [easy |].
    destruct Hrun as [Hd Hrun]. cbn [append Py.search_digits]. rewrite Hd.
    f_equal. change (String d (run ++ post)%string) with (String d run ++ post)%string.
    apply digit_run_app; [now split | assumption].
  - destruct Hpre as [Hc Hpre]. cbn. rewrite Hc. now apply IH.
Qed.

Lemma search_digits_no_digit (s : string) : no_digit s -> Py.search_digits s = None.
Proof.
  induction s as [| c s IH]; [reflexivity |].
  intros [Hc Hs]. cbn. rewrite Hc. now apply IH.
Qed.

Lemma digit_run_spec (s : string) :
  exists post, s = (Py.digit_run s ++ post)%string /\
               only_digits (Py.digit_run s) /\ run_ends post.
Proof.
  induction s as [| c s (post & Hs & Hr & Hp)].
  - exists EmptyString. now cbn.
  - cbn. destruct (Py.is_digit c) eqn:Hc.
    + exists post. cbn. repeat split; auto. now f_equal.
    + exists (String c s). cbn. auto.
Qed.

Lemma first_digit_run_exists (s : string) :
  ~ no_digit s -> exists run, first_digit_run s run.
Proof.
  induction s as [| c s IH]; [intros H; now elim H |].
  intros H. destruct (Py.is_digit c) eqn:Hc.
  - destruct (digit_run_spec (String c s)) as (post & Hs & Hr & Hp).
    exists (Py.digit_run (String c s)), EmptyString, post.
    repeat split; auto. cbn. now rewrite Hc.
  - destruct IH as (run & pre & post & -> & Hpre & Hrun & Hne & Hpost).
    { intros Hs. apply H. now split. }
    exists run, (String c pre), post. repeat split; auto.
Qed.

Lemma astype_int_first_run (s run : string) :
  first_digit_run s run -> (Py.int run <= Pd.int64_max)%Z ->
  Pd.astype_int (Pd.str_extract_digits (Some s)) = Py.Ok (Pd.Int (Py.int run)).
Proof.
  intros H Hmax. pose proof H as (_ & _ & _ & _ & Hrun & Hne & _).
  cbn. rewrite (search_digits_first_run _ _ H). cbn.
  rewrite (digit_run_only_digits _ Hrun), String.eqb_refl.
  destruct (String.eqb_spec run EmptyString); [contradiction |]. cbn.
  destruct (Z.leb_spec (Py.int run) Pd.int64_max); [reflexivity | lia].
Qed.

Lemma astype_int_long_run (s run : string) :
  first_digit_run s run -> (Pd.int64_max < Py.int run)%Z ->
  Pd.astype_int (Pd.str_extract_digits (Some s)) = Py.Raise Py.OverflowError.
Proof.
  intros H Hmax. pose proof H as (_ & _ & _ & _ & Hrun & Hne & _).
  cbn. rewrite (search_digits_first_run _ _ H). cbn.
  rewrite (digit_run_only_digits _ Hrun), String.eqb_refl.
  destruct (String.eqb_spec run EmptyString); [contradiction |]. cbn.
  destruct (Z.leb_spec (Py.int run) Pd.int64_max); [lia | reflexivity].
Qed.

Lemma astype_int_no_digit (s : string) :
  no_digit s ->
  Pd.astype_int (Pd.str_extract_digits (Some s)) = Py.Raise Py.ValueError.
Proof. intros H. cbn. now rewrite (search_digits_no_digit _ H). Qed.

Lemma traverse_raise {A B : Type} (f : A -> Py.result B) (l : list A) (e : Py.exn) :
  (forall x e', In x l -> f x = Py.Raise e' -> e' = e) ->
  (exists x, In x l /\ f x = Py.Raise e) ->
  Pd.traverse f l = Py.Raise e.
Proof.
  induction l as [| y l IH]; intros Hall (x & Hin & Hx); [easy |].
  cbn. destruct (f y) as [b |e'] eqn:Hy.
  - destruct Hin as [-> | Hin]; [congruence |].
    rewrite IH; [reflexivity | | eauto].
    intros; eapply Hall; [right |]; eassumption.
  - f_equal. eapply Hall; [left; reflexivity | eassumption].
Qed.

Lemma traverse_ok {A B : Type} (f : A -> Py.result B) (R : A -> B -> Prop) (l : list A) :
  (forall x, In x l -> exists y, f x = Py.Ok y /\ R x y) ->
  exists l', Pd.traverse f l = Py.Ok l' /\ Forall2 R l l'.
Proof.
  induction l as [| x l IH]; intros H.
  - exists []. now split.
  - destruct (H x (or_introl eq_refl)) as (y & Hy & Hr).
    destruct IH as (l' & Hl' & HF); [intros; apply H; now right |].
    exists (y :: l'). cbn. rewrite Hy, Hl'. split; [reflexivity | now constructor].
Qed.

Lemma traverse_raises {A B : Type} (f : A -> Py.result B) (l : list A) :
  (exists x e, In x l /\ f x = Py.Raise e) ->
  exists e, Pd.traverse f l = Py.Raise e.
Proof.
  induction l as [| y l IH]; intros (x & e & Hin & Hx); [easy |].
  cbn. destruct (f y) as [b | e'] eqn:Hy; [| now exists e'].
  destruct Hin as [-> | Hin]; [congruence |].
  destruct IH as (e' & ->); [now exists x, e |]. now exists e'.
Qed.

Lemma extract_Runtime_Minutes_ok (df : frame) :
  (forall r, In r df ->
             exists s run, Runtime r = Some s /\ first_digit_run s run /\
                           (Py.int run <= Pd.int64_max)%Z) ->
  exists df',
    extract_Runtime_Minutes true df = Py.Ok df' /\
    Forall2 (fun r r' =>
               exists s run,
                 Runtime r = Some s /\ first_digit_run s run /\
                 r' = set_Runtime_Minutes (Pd.Int (Py.int run)) r) df df'.
Proof.
  intros H. apply traverse_ok. intros r Hr.
  destruct (H r Hr) as (s & run & Hs & Hrun & Hmax).
  exists (set_Runtime_Minutes (Pd.Int (Py.int run)) r). split.
  - rewrite Hs, (astype_int_first_run _ _ Hrun Hmax). reflexivity.
  - now exists s, run.
Qed.

Lemma extract_Runtime_Minutes_raises (Runtime_object : bool) (df : frame) (r : row) :
  In r df ->
  (Runtime r = None \/
   (exists s, Runtime r = Some s /\ no_digit s) \/
   (exists s run, Runtime r = Some s /\ first_digit_run s run /\
                  (Pd.int64_max < Py.int run)%Z)) ->
  exists e, extract_Runtime_Minutes Runtime_object df = Py.Raise e.
Proof.
  intros Hin Hr. destruct Runtime_object; [| now exists Py.AttributeError].
  apply traverse_raises. exists r.
  destruct Hr as [Hs | [(s & Hs & Hd) | (s & run & Hs & Hrun & Hmax)]]; rewrite Hs.
  - now exists Py.ValueError.
  - exists Py.ValueError. split; [assumption |]. now rewrite (astype_int_no_digit _ Hd).
  - exists Py.OverflowError. split; [assumption |].
    now rewrite (astype_int_long_run _ _ Hrun Hmax).
Qed.

Lemma extract_Runtime_Minutes_ValueError (df : frame) (r : row) (s : string) :
  In r df -> Runtime r = Some s -> no_digit s ->
  (forall r' s' run, In r' df -> Runtime r' = Some s' -> first_digit_run s' run ->
                     (Py.int run <= Pd.int64_max)%Z) ->
  extract_Runtime_Minutes true df = Py.Raise Py.ValueError.
Proof.
  intros Hin Hs Hd Hall. apply traverse_raise.
  - intros x e' Hx. destruct (Runtime x) as [sx |] eqn:Ex; cbn; [| congruence].
    destruct (Py.search_digits sx) as [d |] eqn:Ed; [| cbn; congruence].
    assert (Hrun : first_digit_run sx d).
    { assert (Hnd : ~ no_digit sx).
      { intros Hn. rewrite (search_digits_no_digit _ Hn) in Ed. discriminate. }
      destruct (first_digit_run_exists sx Hnd) as (run & Hrun).
      pose proof (search_digits_first_run _ _ Hrun) as E. congruence. }
    pose proof (astype_int_first_run sx d Hrun (Hall x sx d Hx Ex Hrun)) as E.
    cbn in E. rewrite Ed in E. rewrite E. discriminate.
  - exists r. split; [assumption |].
    rewrite Hs, (astype_int_no_digit _ Hd). reflexivity.
Qed.

Section SortedPerm.
Context {A : Type} (leb : A -> A -> bool).

Lemma insert_Permutation (x : A) (l : list A) : Permutation (Py.insert leb x l) (x :: l).
Proof.
  induction l as [| y l IH]; cbn; [reflexivity |].
  destruct (leb x y); [reflexivity |].
  rewrite IH. apply perm_swap.
Qed.

Lemma sorted_Permutation (l : list A) : Permutation (Py.sorted leb l) l.
Proof.
  induction l as [| x l IH]; cbn; [reflexivity |].
  rewrite insert_Permutation. now constructor.
Qed.
End SortedPerm.

Lemma Qle_bool_total (a b : Q) : Qle_bool a b = true \/ Qle_bool b a = true.
Proof.
  rewrite !Qle_bool_iff. destruct (Qlt_le_dec a b) as [H | H]; [left | right]; auto.
  now apply Qlt_le_weak.
Qed.

Lemma LocallySorted_impl {A : Type} (R S : A -> A -> Prop) (l : list A) :
  (forall a b, R a b -> S a b) -> LocallySorted R l -> LocallySorted S l.
Proof. intros H. induction 1; constructor; auto. Qed.

Lemma median_spec (col : list Pd.cell) :
  Pd.numeric_values col <> [] ->
  exists m, Pd.median col = Pd.Float m /\ is_median (Pd.numeric_values col) m.
Proof.
  intros Hne. unfold Pd.median.
  set (s := Py.sorted Qle_bool (Pd.numeric_values col)).
  assert (Hp : Permutation s (Pd.numeric_values col)) by apply sorted_Permutation.
  assert (Hs : LocallySorted Qle s).
  { eapply LocallySorted_impl; [| apply sorted_LocallySorted, Qle_bool_total].
    intros a b. apply Qle_bool_iff. }
  assert (Hn : List.length s <> 0).
  { rewrite (Permutation_length Hp). destruct (Pd.numeric_values col); [easy | discriminate]. }
  destruct (Nat.eqb_spec (List.length s) 0) as [E | _]; [contradiction |].
  destruct (Nat.odd (List.length s)) eqn:Hodd.
  - eexists. split; [reflexivity |]. exists s. cbn zeta. now rewrite Hodd.
  - eexists. split; [reflexivity |]. exists s. cbn zeta. rewrite Hodd.
    repeat split; auto. apply Qred_correct.
Qed.

Lemma median_no_value (col : list Pd.cell) :
  Pd.numeric_values col = [] -> Pd.median col = Pd.NaN.
Proof. intros H. unfold Pd.median. now rewrite H. Qed.

Lemma set_Gross_same (r : row) : set_Gross (Gross r) r = r.
Proof. now destruct r. Qed.

Lemma Gross_fill_Gross (v : Pd.cell) (df : frame) :
  map Gross (fill_Gross v df) = map (Pd.fillna v) (map Gross df).
Proof. unfold fill_Gross. rewrite !map_map. reflexivity. Qed.

Lemma fill_Gross_NaN (df : frame) : fill_Gross Pd.NaN df = df.
Proof.
  unfold fill_Gross. rewrite <- (map_id df) at 2. apply map_ext.
  intros r. unfold Pd.fillna. destruct (Pd.isna (Gross r)) eqn:E.
  - destruct (Gross r) eqn:G; try discriminate. rewrite <- G. apply set_Gross_same.
  - apply set_Gross_same.
Qed.

Lemma to_numeric_not_str (parse : string -> option Q) (c : Pd.cell) :
  Pd.is_str (Pd.to_numeric parse c) = false.
Proof. destruct c as [| s | |]; cbn; auto. now destruct (parse s). Qed.

Lemma coerce_Gross_not_str (parse : string -> option Q) (df : frame) :
  Forall (fun c => Pd.is_str c = false) (map Gross (coerce_Gross parse df)).
Proof.
  unfold coerce_Gross. rewrite map_map. apply Forall_map, Forall_forall.
  intros r _. apply to_numeric_not_str.
Qed.

Lemma no_value_all_NaN (col : list Pd.cell) :
  Forall (fun c => Pd.is_str c = false) col ->
  Pd.numeric_values col = [] -> Forall (fun c => c = Pd.NaN) col.
Proof.
  induction 1 as [| c col Hc _ IH]; [constructor |].
  cbn. destruct c; cbn in *; try discriminate; auto.
Qed.

Section Subseq.
Context {A : Type}.

Lemma subseq_refl (l : list A) : subseq l l.
Proof. induction l; [apply subseq_nil | now apply subseq_keep]. Qed.

Lemma subseq_nil_l (l : list A) : subseq [] l.
Proof. induction l; [apply subseq_nil | now apply subseq_skip]. Qed.

Lemma subseq_trans (l1 l2 l3 : list A) : subseq l1 l2 -> subseq l2 l3 -> subseq l1 l3.
Proof.
  intros H12 H23. revert l1 H12.
  induction H23 as [| x l2 l3 H IH | x l2 l3 H IH]; intros l1 H12.
  - assumption.
  - apply subseq_skip. now apply IH.
  - inversion H12; subst; [apply subseq_skip | apply subseq_keep]; now apply IH.
Qed.

Lemma subseq_filter (f : A -> bool) (l : list A) : subseq (filter f l) l.
Proof.
  induction l as [| x l IH]; cbn; [apply subseq_nil |].
  destruct (f x); [now apply subseq_keep | now apply subseq_skip].
Qed.

Lemma subseq_In (l1 l2 : list A) (x : A) : subseq l1 l2 -> In x l1 -> In x l2.
Proof.
  induction 1 as [| y l1 l2 H IH | y l1 l2 H IH]; cbn; auto.
  intros [-> | Hx]; auto.
Qed.

Lemma subseq_map {B : Type} (g : A -> B) (l1 l2 : list A) :
  subseq l1 l2 -> subseq (map g l1) (map g l2).
Proof.
  induction 1; cbn; [apply subseq_nil | now apply subseq_skip | now apply subseq_keep].
Qed.

Lemma subseq_StronglySorted (R : A -> A -> Prop) (l1 l2 : list A) :
  subseq l1 l2 -> StronglySorted R l2 -> StronglySorted R l1.
Proof.
  induction 1 as [| y l1 l2 H IH | y l1 l2 H IH]; intros Hs.
  - constructor.
  - inversion Hs; subst. auto.
  - inversion Hs as [| ? ? Hs' Hall]; subst. constructor; [auto |].
    rewrite Forall_forall in *. intros x Hx. apply Hall. eapply subseq_In; eassumption.
Qed.
End Subseq.

Lemma option_string_eqb_spec (a b : option string) : reflect (a = b) (option_string_eqb a b).
Proof.
  destruct a as [x |], b as [y |]; cbn; try (constructor; congruence).
  destruct (String.eqb_spec x y); constructor; congruence.
Qed.

Section DropDuplicatesFacts.
Context {R K : Type} (eqb : K -> K -> bool) (key : R -> K).
Hypothesis eqb_spec : forall a b, reflect (a = b) (eqb a b).

Lemma existsb_eqb_In (k : K) (seen : list K) : existsb (eqb k) seen = true <-> In k seen.
Proof.
  rewrite existsb_exists. split.
  - intros (x & Hx & E). now destruct (eqb_spec k x); subst.
  - intros H. exists k. split; [assumption |]. now destruct (eqb_spec k k).
Qed.

Lemma drop_duplicates_go_subseq (seen : list K) (df : list R) :
  subseq (Pd.drop_duplicates_go eqb key seen df) df.
Proof.
  revert seen. induction df as [| r df IH]; intros seen; cbn; [apply subseq_nil |].
  destruct (existsb (eqb (key r)) seen); [apply subseq_skip | apply subseq_keep]; auto.
Qed.

Lemma drop_duplicates_go_fresh (seen : list K) (df : list R) (r : R) :
  In r (Pd.drop_duplicates_go eqb key seen df) -> ~ In (key r) seen.
Proof.
  revert seen. induction df as [| x df IH]; intros seen; cbn; [easy |].
  destruct (existsb (eqb (key x)) seen) eqn:E; [apply IH |].
  intros [-> | H].
  - rewrite <- existsb_eqb_In. congruence.
  - apply IH in H. intros Hin. apply H. now right.
Qed.

Lemma drop_duplicates_go_NoDup (seen : list K) (df : list R) :
  NoDup (map key (Pd.drop_duplicates_go eqb key seen df)).
Proof.
  revert seen. induction df as [| x df IH]; intros seen; cbn; [constructor |].
  destruct (existsb (eqb (key x)) seen) eqn:E; [apply IH |].
  cbn. constructor; [| apply IH].
  rewrite in_map_iff. intros (r & Hk & Hr).
  apply drop_duplicates_go_fresh in Hr. apply Hr. left. congruence.
Qed.

Lemma drop_duplicates_go_seen_ext (s1 s2 : list K) (df : list R) :
  (forall k, In k s1 <-> In k s2) ->
  Pd.drop_duplicates_go eqb key s1 df = Pd.drop_duplicates_go eqb key s2 df.
Proof.
  revert s1 s2. induction df as [| x df IH]; intros s1 s2 H; cbn; [reflexivity |].
  assert (E : existsb (eqb (key x)) s1 = existsb (eqb (key x)) s2).
  { apply eq_true_iff_eq. rewrite !existsb_eqb_In. apply H. }
  rewrite E. destruct (existsb (eqb (key x)) s2); [now apply IH |].
  f_equal. apply IH. intros k. cbn. now rewrite H.
Qed.

Lemma drop_duplicates_go_app (seen : list K) (pre l : list R) :
  Pd.drop_duplicates_go eqb key seen (pre ++ l) =
  Pd.drop_duplicates_go eqb key seen pre ++
  Pd.drop_duplicates_go eqb key (rev (map key pre) ++ seen) l.
Proof.
  revert seen. induction pre as [| x pre IH]; intros seen; cbn; [reflexivity |].
  destruct (existsb (eqb (key x)) seen) eqn:E.
  - rewrite IH. f_equal. apply drop_duplicates_go_seen_ext.
    intros k. repeat (rewrite in_app_iff || cbn [In]).
    apply existsb_eqb_In in E. intuition (subst; auto).
  - cbn. f_equal. rewrite IH. f_equal. apply drop_duplicates_go_seen_ext.
    intros k. repeat (rewrite in_app_iff || cbn [In]). tauto.
Qed.

Lemma drop_duplicates_position (pre post : list R) (r : R) :
  exists rest,
    Pd.drop_duplicates eqb key (pre ++ r :: post) =
    Pd.drop_duplicates eqb key pre
    ++ (if existsb (eqb (key r)) (map key pre) then [] else [r]) ++ rest
    /\ subseq rest post.
Proof.
  unfold Pd.drop_duplicates. rewrite drop_duplicates_go_app, app_nil_r. cbn.
  assert (E : existsb (eqb (key r)) (rev (map key pre)) = existsb (eqb (key r)) (map key pre)).
  { apply eq_true_iff_eq. rewrite !existsb_eqb_In. symmetry. apply in_rev. }
  rewrite E. destruct (existsb (eqb (key r)) (map key pre));
    eexists; (split; [reflexivity | apply drop_duplicates_go_subseq]).
Qed.
End DropDuplicatesFacts.

(** Inversion of a sequence of two computations. *)
Lemma bind_Ok_inv {A B : Type} (m : M A) (k : A -> M B) (b : B) :
  snd (bind m k) = Py.Ok b -> exists a, snd m = Py.Ok a /\ snd (k a) = Py.Ok b.
Proof.
  destruct m as [l [a | e]]; cbn; [| discriminate].
  destruct (k a) as [l' r] eqn:E. cbn. intros ->. exists a. now rewrite E.
Qed.

Lemma traverse_map_eq {A B C : Type} (f : A -> Py.result B) (g : A -> C) (g' : B -> C)
      (l : list A) (l' : list B) :
  (forall x y, f x = Py.Ok y -> g' y = g x) ->
  Pd.traverse f l = Py.Ok l' -> map g' l' = map g l.
Proof.
  intros Hf. revert l'. induction l as [| x l IH]; intros l'; cbn.
  - now intros [= <-].
  - destruct (f x) as [y |] eqn:Hy; [| discriminate].
    destruct (Pd.traverse f l) as [ys |]; [| discriminate].
    intros [= <-]. cbn. f_equal; auto.
Qed.

Lemma traverse_Forall {A B : Type} (f : A -> Py.result B) (P : A -> Prop) (Q : B -> Prop)
      (l : list A) (l' : list B) :
  (forall x y, P x -> f x = Py.Ok y -> Q y) ->
  Forall P l -> Pd.traverse f l = Py.Ok l' -> Forall Q l'.
Proof.
  intros Hf HP. revert l'. induction HP as [| x l Hx _ IH]; intros l'; cbn.
  - intros [= <-]. constructor.
  - destruct (f x) as [y |] eqn:Hy; [| discriminate].
    destruct (Pd.traverse f l) as [ys |]; [| discriminate].
    intros [= <-]. constructor; eauto.
Qed.

Lemma dropna_Released_Year (df : frame) :
  dropna [isnull_cell Released_Year] df
  = filter (fun r => negb (Pd.isna (Released_Year r))) df.
Proof.
  unfold dropna. apply filter_ext. intros r. cbn. now rewrite orb_false_r.
Qed.

Lemma process_Released_Year_eq (parse : string -> option Q) (df : frame) :
  process_Released_Year parse df
  = Py.Ok (map (cast_year parse) (filter (has_year parse) df)).
Proof.
  unfold process_Released_Year. rewrite dropna_Released_Year.
  induction df as [| r df IH]; [reflexivity |].
  cbn [map filter]. unfold has_year at 1. cbn [Released_Year set_Released_Year].
  destruct (Pd.isna (Pd.to_numeric parse (Released_Year r))) eqn:E; cbn [negb].
  - exact IH.
  - cbn [Pd.traverse map]. rewrite IH. cbn [Released_Year set_Released_Year].
    unfold cast_year. pose proof (to_numeric_not_str parse (Released_Year r)) as Hs.
    destruct (Pd.to_numeric parse (Released_Year r)); try discriminate; reflexivity.
Qed.

Lemma filter_filter_eq {A : Type} (f g h : A -> bool) (l : list A) :
  (forall x, g x && f x = h x) -> filter f (filter g l) = filter h l.
Proof.
  intros H. induction l as [| x l IH]; [reflexivity |].
  cbn [filter]. rewrite <- H. destruct (g x); cbn [andb filter]; [| exact IH].
  destruct (f x); now rewrite IH.
Qed.

Lemma kept_rows_IMDB_data_analysis (parse : string -> option Q) (df : frame) :
  filter (has_year parse) (IMDB_data_analysis.drop_critical df)
  = filter (complete_row parse) df.
Proof.
  apply filter_filter_eq. intros r.
  unfold complete_row, has_year, isnull_text, isnull_cell. cbn [existsb].
  destruct (Genre r), (Director r), (Series_Title r), (Released_Year r); reflexivity.
Qed.

Lemma kept_rows_imdb (parse : string -> option Q) (df : frame) :
  filter (has_year parse) (imdb.drop_critical df)
  = filter (complete_row parse) df.
Proof.
  apply filter_filter_eq. intros r.
  unfold complete_row, has_year, isnull_text. cbn [existsb].
  destruct (Genre r), (Director r), (Series_Title r); reflexivity.
Qed.

Lemma clean_eq_IMDB_data_analysis (parse : string -> option Q) (df : frame) :
  snd (IMDB_data_analysis.clean parse df)
  = Py.Ok (map (cast_year parse) (filter (complete_row parse) (repaired parse df))).
Proof.
  unfold IMDB_data_analysis.clean, IMDB_data_analysis.process_Gross.
  cbn. now rewrite process_Released_Year_eq, kept_rows_IMDB_data_analysis.
Qed.

Lemma clean_eq_imdb (parse : string -> option Q) (df : frame) :
  snd (imdb.clean parse df)
  = Py.Ok (map (cast_year parse) (filter (complete_row parse) (repaired parse df))).
Proof.
  unfold imdb.clean, imdb.process_Gross.
  cbn. now rewrite process_Released_Year_eq, kept_rows_imdb.
Qed.

Lemma repaired_eq (parse : string -> option Q) (df : frame) :
  exists m : Pd.cell, exists f : Pd.cell -> Pd.cell,
    repaired parse df
    = map (fun r => set_Gross (Pd.fillna m (Pd.to_numeric parse (f (Gross r))))
                      (set_Certificate (Pd.fillna_text "Not Rated" (Certificate r)) r)) df.
Proof.
  unfold repaired, fill_Gross, coerce_Gross, fill_Certificate.
  exists (Pd.median
            (map Gross
               (map (fun r => set_Gross (Pd.to_numeric parse (Gross r)) r)
                  (if Pd.dtype_is_object
                        (map Gross (map (fun r => set_Certificate
                                                    (Pd.fillna_text "Not Rated" (Certificate r)) r) df))
                   then map (fun r => set_Gross (Pd.str_replace "," "" (Gross r)) r)
                            (map (fun r => set_Certificate
                                             (Pd.fillna_text "Not Rated" (Certificate r)) r) df)
                   else map (fun r => set_Certificate
                                        (Pd.fillna_text "Not Rated" (Certificate r)) r) df)))).
  destruct (Pd.dtype_is_object _).
  - exists (Pd.str_replace "," ""). rewrite !map_map. reflexivity.
  - exists (fun c => c). rewrite !map_map. reflexivity.
Qed.

Lemma clean_result (parse : string -> option Q) (df : frame) :
  exists h : row -> row,
    snd (IMDB_data_analysis.clean parse df) = Py.Ok (map h (filter (complete_row parse) df)) /\
    snd (imdb.clean parse df) = Py.Ok (map h (filter (complete_row parse) df)) /\
    forall r,
      index (h r) = index r /\ Series_Title (h r) = Series_Title r /\
      Genre (h r) = Genre r /\ Director (h r) = Director r /\
      Runtime (h r) = Runtime r /\
      Certificate (h r) = Pd.fillna_text "Not Rated" (Certificate r) /\
      Released_Year (h r) = Pd.Int (year_value (Pd.to_numeric parse (Released_Year r))).
Proof.
  destruct (repaired_eq parse df) as (m & f & Hrep).
  exists (fun r => cast_year parse
                     (set_Gross (Pd.fillna m (Pd.to_numeric parse (f (Gross r))))
                        (set_Certificate (Pd.fillna_text "Not Rated" (Certificate r)) r))).
  rewrite clean_eq_IMDB_data_analysis, clean_eq_imdb, Hrep.
  rewrite filter_map_swap, map_map.
  repeat split.
Qed.

Lemma complete_row_spec (parse : string -> option Q) (r : row) :
  complete_row parse r = true ->
  Genre r <> None /\ Director r <> None /\ Series_Title r <> None.
Proof.
  unfold complete_row, isnull_text.
  destruct (Genre r), (Director r), (Series_Title r); cbn; try discriminate.
  repeat split; discriminate.
Qed.

Lemma subseq_Forall {A : Type} (P : A -> Prop) (l1 l2 : list A) :
  subseq l1 l2 -> Forall P l2 -> Forall P l1.
Proof.
  intros Hs H. rewrite Forall_forall in *. intros x Hx. apply H.
  eapply subseq_In; eassumption.
Qed.

Lemma drop_duplicate_titles_subseq (df : frame) : subseq (drop_duplicate_titles df) df.
Proof. apply drop_duplicates_go_subseq. Qed.

Lemma drop_duplicate_titles_NoDup (df : frame) :
  NoDup (map Series_Title (drop_duplicate_titles df)).
Proof. apply drop_duplicates_go_NoDup, option_string_eqb_spec. Qed.

(** Both feature blocks keep what the cleaning promised. *)
Lemma extract_Runtime_Minutes_inv (t : bool) (df df' : frame) (P : row -> Prop) :
  (forall r v, P r -> P (set_Runtime_Minutes v r)) ->
  extract_Runtime_Minutes t df = Py.Ok df' -> Forall P df -> Forall P df'.
Proof.
  intros HP H HF. destruct t; [| discriminate].
  eapply traverse_Forall; [| exact HF | exact H].
  intros r r' Hr. cbn. destruct (Pd.astype_int _); [| discriminate].
  intros [= <-]. now apply HP.
Qed.

Lemma extract_Runtime_Minutes_keys (t : bool) (df df' : frame) :
  extract_Runtime_Minutes t df = Py.Ok df' -> map row_key df' = map row_key df.
Proof.
  destruct t; [| discriminate].
  apply traverse_map_eq. intros r r'. destruct (Pd.astype_int _); [| discriminate].
  now intros [= <-].
Qed.

Lemma apply_clean_genre_keys (t : bool) (df df' : frame) :
  apply_clean_genre t df = Py.Ok df' -> map row_key df' = map row_key df.
Proof.
  apply traverse_map_eq. intros r r'.
  destruct (if t then Genre r else None); [| discriminate].
  now intros [= <-].
Qed.

Lemma apply_clean_genre_cleaned (t : bool) (df df' : frame) :
  apply_clean_genre t df = Py.Ok df' -> Forall cleaned_row df -> Forall cleaned_row df'.
Proof.
  intros H HF. eapply traverse_Forall; [| exact HF | exact H].
  intros r r' (Hc & Hg & Hd & Ht & Hy). cbn.
  destruct (if t then Genre r else None); [| discriminate].
  intros [= <-]. repeat split; auto. discriminate.
Qed.

Lemma feature_engineering_inv (rt gt : bool) (df df' : frame) :
  snd (IMDB_data_analysis.feature_engineering rt gt df) = Py.Ok df' ->
  exists df1 df2,
    extract_Runtime_Minutes rt df = Py.Ok df1 /\
    apply_clean_genre gt (assign_Decade df1) = Py.Ok df2 /\
    df' = drop_duplicate_titles df2.
Proof.
  unfold IMDB_data_analysis.feature_engineering. intros H.
  apply bind_Ok_inv in H as (df1 & H1 & H).
  apply bind_Ok_inv in H as (df2 & H2 & H).
  cbn in H. injection H as <-. now exists df1, df2.
Qed.

Lemma feature_extraction_inv (parse : string -> option Q) (rt gt : bool) (df df' : frame) :
  snd (imdb.feature_extraction parse rt gt df) = Py.Ok df' ->
  exists df0 df1 df2,
    imdb.assign_Num_Genres gt df = Py.Ok df0 /\
    extract_Runtime_Minutes rt df0 = Py.Ok df1 /\
    apply_clean_genre gt (assign_Decade df1) = Py.Ok df2 /\
    df' = drop_duplicate_titles (imdb.ensure_numeric parse df2).
Proof.
  unfold imdb.feature_extraction. intros H.
  apply bind_Ok_inv in H as (df0 & H0 & H).
  apply bind_Ok_inv in H as (df1 & H1 & H).
  apply bind_Ok_inv in H as (df2 & H2 & H).
  cbn in H. injection H as <-. now exists df0, df1, df2.
Qed.

Lemma main_inv_IMDB_data_analysis
      (parse : string -> option Q) (sort : list (string * nat) -> list (string * nat))
      (data : list Csv.line) (df : frame) :
  snd (IMDB_data_analysis.main parse sort data) = Py.Ok df ->
  exists rt gt df0,
    snd (IMDB_data_analysis.clean parse (read_csv data)) = Py.Ok df0 /\
    snd (IMDB_data_analysis.feature_engineering rt gt df0) = Py.Ok df.
Proof.
  unfold IMDB_data_analysis.main. intros H.
  apply bind_Ok_inv in H as (df0 & H0 & H).
  apply bind_Ok_inv in H as (df1 & H1 & H).
  apply bind_Ok_inv in H as (u & _ & H).
  cbn in H. injection H as <-. eexists _, _, df0. split; eassumption.
Qed.

Lemma main_inv_imdb
      (parse : string -> option Q) (sort : list (string * nat) -> list (string * nat))
      (data : list Csv.line) (df : frame) :
  snd (imdb.main parse sort data) = Py.Ok df ->
  exists rt gt df0,
    snd (imdb.clean parse (read_csv data)) = Py.Ok df0 /\
    snd (imdb.feature_extraction parse rt gt df0) = Py.Ok df.
Proof.
  unfold imdb.main. intros H.
  apply bind_Ok_inv in H as (df0 & H0 & H).
  apply bind_Ok_inv in H as (df1 & H1 & H).
  apply bind_Ok_inv in H as (u & _ & H).
  cbn in H. injection H as <-. eexists _, _, df0. split; eassumption.
Qed.

Lemma clean_cleaned (parse : string -> option Q) (df df' : frame) :
  snd (IMDB_data_analysis.clean parse df) = Py.Ok df' -> Forall cleaned_row df'.
Proof.
  destruct (clean_result parse df) as (h & H1 & _ & Hh). rewrite H1. intros [= <-].
  apply Forall_map, Forall_forall. intros r Hr.
  apply filter_In in Hr as [_ Hc]. apply complete_row_spec in Hc as (Hg & Hd & Ht).
  unfold cleaned_row. destruct (Hh r) as (_ & -> & -> & -> & _ & -> & ->).
  repeat split; auto; [| eauto]. now destruct (Certificate r).
Qed.

Lemma clean_keys (parse : string -> option Q) (df df' : frame) :
  snd (IMDB_data_analysis.clean parse df) = Py.Ok df' ->
  subseq (map row_key df') (map row_key df).
Proof.
  destruct (clean_result parse df) as (h & H1 & _ & Hh). rewrite H1. intros [= <-].
  rewrite map_map.
  replace (map (fun r => row_key (h r)) (filter (complete_row parse) df))
    with (map row_key (filter (complete_row parse) df)).
  - apply subseq_map, subseq_filter.
  - apply map_ext. intros r. unfold row_key. now destruct (Hh r) as (-> & -> & _).
Qed.

Lemma seq_StronglySorted (start len : nat) : StronglySorted lt (seq start len).
Proof.
  revert start. induction len as [| len IH]; intros start; cbn; constructor; [apply IH |].
  apply Forall_forall. intros x Hx. apply in_seq in Hx. lia.
Qed.

Lemma read_csv_index (data : list Csv.line) :
  map index (read_csv data) = seq 0 (List.length data).
Proof.
  unfold read_csv. rewrite map_map. cbn [index load_line fst].
  generalize 0. induction data as [| l data IH]; intros start; [reflexivity |].
  cbn. f_equal. apply IH.
Qed.

Lemma assign_Decade_keys (df : frame) : map row_key (assign_Decade df) = map row_key df.
Proof. unfold assign_Decade. now rewrite map_map. Qed.

Lemma assign_Num_Genres_keys (t : bool) (df df' : frame) :
  imdb.assign_Num_Genres t df = Py.Ok df' -> map row_key df' = map row_key df.
Proof.
  unfold imdb.assign_Num_Genres. destruct t; [| discriminate].
  intros [= <-]. now rewrite map_map.
Qed.

Lemma ensure_numeric_keys (parse : string -> option Q) (df : frame) :
  map row_key (imdb.ensure_numeric parse df) = map row_key df.
Proof. unfold imdb.ensure_numeric. now rewrite map_map. Qed.

Lemma feature_engineering_keys (rt gt : bool) (df df' : frame) :
  snd (IMDB_data_analysis.feature_engineering rt gt df) = Py.Ok df' ->
  subseq (map row_key df') (map row_key df).
Proof.
  intros H. apply feature_engineering_inv in H as (df1 & df2 & H1 & H2 & ->).
  apply extract_Runtime_Minutes_keys in H1. apply apply_clean_genre_keys in H2.
  rewrite <- H1, <- (assign_Decade_keys df1), <- H2.
  apply subseq_map, drop_duplicate_titles_subseq.
Qed.

Lemma feature_extraction_keys (parse : string -> option Q) (rt gt : bool) (df df' : frame) :
  snd (imdb.feature_extraction parse rt gt df) = Py.Ok df' ->
  subseq (map row_key df') (map row_key df).
Proof.
  intros H. apply feature_extraction_inv in H as (df0 & df1 & df2 & H0 & H1 & H2 & ->).
  apply assign_Num_Genres_keys in H0.
  apply extract_Runtime_Minutes_keys in H1. apply apply_clean_genre_keys in H2.
  rewrite <- H0, <- H1, <- (assign_Decade_keys df1), <- H2,
    <- (ensure_numeric_keys parse df2).
  apply subseq_map, drop_duplicate_titles_subseq.
Qed.

Lemma feature_engineering_cleaned (rt gt : bool) (df df' : frame) :
  snd (IMDB_data_analysis.feature_engineering rt gt df) = Py.Ok df' ->
  Forall cleaned_row df -> Forall cleaned_row df'.
Proof.
  intros H HF. apply feature_engineering_inv in H as (df1 & df2 & H1 & H2 & ->).
  eapply subseq_Forall; [apply drop_duplicate_titles_subseq |].
  eapply apply_clean_genre_cleaned; [exact H2 |].
  unfold assign_Decade. apply Forall_map.
  eapply Forall_impl; [| eapply extract_Runtime_Minutes_inv; [| exact H1 | exact HF]].
  - intros r Hr. exact Hr.
  - intros r v Hr. exact Hr.
Qed.

Lemma traverse_agree {A A' B B' : Type} (R : A -> A' -> Prop) (S : B -> B' -> Prop)
      (f : A -> Py.result B) (f' : A' -> Py.result B') (l : list A) (l' : list A') :
  (forall x x', R x x' -> agree S (f x) (f' x')) ->
  Forall2 R l l' ->
  agree (Forall2 S) (Pd.traverse f l) (Pd.traverse f' l').
Proof.
  intros Hf. induction 1 as [| x x' l l' Hx _ IH]; cbn; [constructor |].
  specialize (Hf x x' Hx).
  destruct (f x), (f' x'); cbn in Hf; try contradiction; [| exact Hf].
  destruct (Pd.traverse f l), (Pd.traverse f' l'); cbn in *; try contradiction; auto.
Qed.

Lemma drop_duplicates_go_same_source (seen : list (option string)) (l l' : frame) :
  Forall2 same_source l l' ->
  Forall2 same_source
    (Pd.drop_duplicates_go option_string_eqb Series_Title seen l)
    (Pd.drop_duplicates_go option_string_eqb Series_Title seen l').
Proof.
  intros H. revert seen. induction H as [| r r' l l' Hr _ IH]; intros seen; cbn; [constructor |].
  destruct Hr as (Hi & Ht & Hrt & Hg). rewrite Ht.
  destruct (existsb _ seen); [apply IH |].
  constructor; [now repeat split | apply IH].
Qed.

Lemma same_source_keys (l l' : frame) :
  Forall2 same_source l l' -> map row_key l' = map row_key l.
Proof.
  induction 1 as [| r r' l l' (Hi & Ht & _) _ IH]; cbn; [reflexivity |].
  unfold row_key at 1 3. now rewrite Hi, Ht, IH.
Qed.

Lemma Forall2_map_both {A B C D : Type} (R : A -> B -> Prop) (S : C -> D -> Prop)
      (f : A -> C) (g : B -> D) (l : list A) (l' : list B) :
  (forall a b, R a b -> S (f a) (g b)) -> Forall2 R l l' -> Forall2 S (map f l) (map g l').
Proof. intros H. induction 1; cbn; constructor; auto. Qed.

Lemma snd_bind {A B : Type} (m : M A) (k : A -> M B) :
  snd (bind m k) = match snd m with
                   | Py.Ok a => snd (k a)
                   | Py.Raise e => Py.Raise e
                   end.
Proof. destruct m as [l [a | e]]; cbn; [| reflexivity]. now destruct (k a). Qed.

Lemma feature_engineering_snd (rt gt : bool) (df : frame) :
  snd (IMDB_data_analysis.feature_engineering rt gt df)
  = match extract_Runtime_Minutes rt df with
    | Py.Ok df1 =>
        match apply_clean_genre gt (assign_Decade df1) with
        | Py.Ok df2 => Py.Ok (drop_duplicate_titles df2)
        | Py.Raise e => Py.Raise e
        end
    | Py.Raise e => Py.Raise e
    end.
Proof.
  unfold IMDB_data_analysis.feature_engineering. rewrite snd_bind. cbn [lift snd].
  destruct (extract_Runtime_Minutes rt df) as [df1 |]; [| reflexivity].
  rewrite snd_bind. cbn [lift snd].
  destruct (apply_clean_genre gt (assign_Decade df1)); reflexivity.
Qed.

Lemma feature_extraction_snd (parse : string -> option Q) (rt gt : bool) (df : frame) :
  snd (imdb.feature_extraction parse rt gt df)
  = match imdb.assign_Num_Genres gt df with
    | Py.Ok df0 =>
        match extract_Runtime_Minutes rt df0 with
        | Py.Ok df1 =>
            match apply_clean_genre gt (assign_Decade df1) with
            | Py.Ok df2 => Py.Ok (drop_duplicate_titles (imdb.ensure_numeric parse df2))
            | Py.Raise e => Py.Raise e
            end
        | Py.Raise e => Py.Raise e
        end
    | Py.Raise e => Py.Raise e
    end.
Proof.
  unfold imdb.feature_extraction. rewrite snd_bind. cbn [lift snd].
  destruct (imdb.assign_Num_Genres gt df) as [df0 |]; [| reflexivity].
  rewrite snd_bind. cbn [lift snd].
  destruct (extract_Runtime_Minutes rt df0) as [df1 |]; [| reflexivity].
  rewrite snd_bind. cbn [lift snd].
  destruct (apply_clean_genre gt (assign_Decade df1)); reflexivity.
Qed.

Lemma extract_Runtime_Minutes_agree (t : bool) (l l' : frame) :
  Forall2 same_source l l' ->
  agree (Forall2 same_source) (extract_Runtime_Minutes t l) (extract_Runtime_Minutes t l').
Proof.
  destruct t; [| reflexivity].
  apply traverse_agree. intros x x' (Hi & Ht & Hr & Hg). rewrite Hr.
  destruct (Pd.astype_int _); cbn; [now repeat split | reflexivity].
Qed.

Lemma apply_clean_genre_agree (t : bool) (l l' : frame) :
  Forall2 same_source l l' ->
  agree (Forall2 same_source) (apply_clean_genre t l) (apply_clean_genre t l').
Proof.
  apply traverse_agree. intros x x' (Hi & Ht & Hr & Hg). rewrite Hg.
  destruct (if t then Genre x else None); cbn; [now repeat split | reflexivity].
Qed.

Lemma assign_Num_Genres_text (df : frame) :
  exists df0, imdb.assign_Num_Genres true df = Py.Ok df0 /\ Forall2 same_source df df0.
Proof.
  eexists. split; [reflexivity |].
  induction df; cbn; constructor; auto. now repeat split.
Qed.

(** With a [Genre] column read as text the two feature blocks fail alike or
    succeed with rows of the same lines. *)
Lemma feature_blocks_agree (parse : string -> option Q) (rt : bool) (df : frame) :
  agree (Forall2 same_source)
        (snd (IMDB_data_analysis.feature_engineering rt true df))
        (snd (imdb.feature_extraction parse rt true df)).
Proof.
  rewrite feature_engineering_snd, feature_extraction_snd.
  destruct (assign_Num_Genres_text df) as (df0 & -> & H0).
  apply (extract_Runtime_Minutes_agree rt) in H0 as H1.
  destruct (extract_Runtime_Minutes rt df) as [a |],
           (extract_Runtime_Minutes rt df0) as [b |];
    cbn in H1; try contradiction; [| exact H1].
  assert (H2 : Forall2 same_source (assign_Decade a) (assign_Decade b)).
  { unfold assign_Decade. eapply Forall2_map_both; [| exact H1].
    intros x y (Hi & Ht & Hr & Hg). now repeat split. }
  apply (apply_clean_genre_agree true) in H2 as H3.
  destruct (apply_clean_genre true (assign_Decade a)) as [c |],
           (apply_clean_genre true (assign_Decade b)) as [d |];
    cbn in H3; try contradiction; [| exact H3].
  cbn. apply drop_duplicates_go_same_source.
  unfold imdb.ensure_numeric. rewrite <- (map_id c).
  eapply Forall2_map_both; [| exact H3].
  intros x y (Hi & Ht & Hr & Hg). now repeat split.
Qed.

Lemma first_max_In {A : Type} (leb : A -> A -> bool) (l : list A) (m : A) :
  Pd.first_max leb l = Some m -> In m l.
Proof.
  revert m. induction l as [| y l IH]; [discriminate |].
  cbn [Pd.first_max]. intros m. destruct (Pd.first_max leb l) as [m' |].
  - destruct (leb m' y); intros [= <-]; [now left | right; now apply IH].
  - intros [= <-]. now left.
Qed.

Lemma first_max_all_le (l : list (string * nat)) (x : string * nat) :
  (forall y, In y l -> snd y <= snd x) ->
  Pd.first_max Pd.count_le (x :: l) = Some x.
Proof.
  intros H. cbn [Pd.first_max].
  destruct (Pd.first_max Pd.count_le l) as [m |] eqn:E; [| reflexivity].
  apply first_max_In in E. unfold Pd.count_le.
  destruct (Nat.leb_spec (snd m) (snd x)); [reflexivity |].
  specialize (H m E). lia.
Qed.

Lemma recorded_incr (k u : string) (t : list (string * nat)) :
  recorded u (Pd.incr k t) = recorded u t + (if String.eqb u k then 1 else 0).
Proof.
  induction t as [| [k' n] t IH]; cbn.
  - destruct (String.eqb u k); reflexivity.
  - destruct (String.eqb_spec k k') as [-> | Hk]; cbn.
    + destruct (String.eqb_spec u k'); lia.
    + destruct (String.eqb_spec u k') as [-> | Hu].
      * destruct (String.eqb_spec k' k); [congruence | lia].
      * exact IH.
Qed.

Lemma incr_known (k : string) (t : list (string * nat)) :
  In k (map fst t) -> map fst (Pd.incr k t) = map fst t.
Proof.
  induction t as [| [k' n] t IH]; cbn; [easy |].
  destruct (String.eqb_spec k k') as [-> | Hk]; [reflexivity |].
  intros [E | H]; [congruence |]. cbn. f_equal. now apply IH.
Qed.

Lemma incr_new (k : string) (t : list (string * nat)) :
  ~ In k (map fst t) -> Pd.incr k t = t ++ [(k, 1)].
Proof.
  induction t as [| [k' n] t IH]; cbn; [reflexivity |].
  intros H. destruct (String.eqb_spec k k') as [-> | Hk]; [tauto |].
  f_equal. apply IH. tauto.
Qed.

Lemma incr_keys_NoDup (k : string) (t : list (string * nat)) :
  NoDup (map fst t) -> NoDup (map fst (Pd.incr k t)).
Proof.
  intros H. destruct (in_dec string_dec k (map fst t)) as [Hin | Hout].
  - now rewrite incr_known.
  - rewrite incr_new, map_app by assumption. cbn.
    apply NoDup_app; [assumption | repeat constructor; easy |].
    intros x Hx [<- | []]. contradiction.
Qed.

Lemma tally_from_keys (acc : list (string * nat)) (l : list string) :
  exists extra, map fst (tally_from acc l) = map fst acc ++ extra /\ incl extra l.
Proof.
  revert acc. induction l as [| k l IH]; intros acc; cbn.
  - exists []. rewrite app_nil_r. split; [reflexivity | easy].
  - destruct (IH (Pd.incr k acc)) as (extra & He & Hi).
    destruct (in_dec string_dec k (map fst acc)) as [Hin | Hout].
    + exists extra. rewrite incr_known in He by assumption.
      split; [exact He | now apply incl_tl].
    + exists (k :: extra).
      assert (E : map fst (Pd.incr k acc) = map fst acc ++ [k]).
      { rewrite incr_new by assumption. now rewrite map_app. }
      rewrite E, <- app_assoc in He.
      split; [exact He |]. apply incl_cons; [now left | now apply incl_tl].
Qed.

Lemma tally_from_NoDup (acc : list (string * nat)) (l : list string) :
  NoDup (map fst acc) -> NoDup (map fst (tally_from acc l)).
Proof.
  revert acc. induction l as [| k l IH]; intros acc H; cbn; [exact H |].
  apply IH, incr_keys_NoDup, H.
Qed.

Lemma tally_from_recorded (acc : list (string * nat)) (l : list string) (u : string) :
  recorded u (tally_from acc l) = recorded u acc + occurrences l u.
Proof.
  revert acc. induction l as [| k l IH]; intros acc; cbn; [lia |].
  fold (tally_from (Pd.incr k acc) l). rewrite IH, recorded_incr.
  unfold occurrences. destruct (string_dec k u) as [-> | Hk].
  - rewrite String.eqb_refl. lia.
  - destruct (String.eqb_spec u k); [congruence | lia].
Qed.

Lemma recorded_In (t : list (string * nat)) (u : string) (c : nat) :
  NoDup (map fst t) -> In (u, c) t -> recorded u t = c.
Proof.
  induction t as [| [k n] t IH]; cbn; [easy |].
  intros Hnd [[= -> ->] | Hin].
  - now rewrite String.eqb_refl.
  - inversion Hnd as [| ? ? Hk Hnd']; subst.
    destruct (String.eqb_spec u k) as [-> | _]; [| now apply IH].
    elim Hk. apply in_map_iff. now exists (k, c).
Qed.

Lemma tally_counts (l : list string) (u : string) (c : nat) :
  In (u, c) (Pd.tally l) -> c = occurrences l u.
Proof.
  intros H. change (Pd.tally l) with (tally_from [] l) in H.
  apply recorded_In in H; [| apply tally_from_NoDup; constructor].
  now rewrite tally_from_recorded in H.
Qed.

(** *** Frequency tables *)

Lemma recorded_pos_In (k : string) (t : list (string * nat)) :
  0 < recorded k t -> In (k, recorded k t) t.
Proof.
  induction t as [| [k' n] t IH]; cbn; [lia |].
  destruct (String.eqb_spec k k') as [-> | _]; [now left | right; auto].
Qed.

Lemma occurrences_pos (l : list string) (k : string) : In k l -> 0 < occurrences l k.
Proof. intros H. unfold occurrences. now apply count_occ_In. Qed.

Lemma tally_ranks_but_order (l : list string) :
  NoDup (map fst (Pd.tally l)) /\
  forall k c, In (k, c) (Pd.tally l) <-> In k l /\ c = occurrences l k.
Proof.
  change (Pd.tally l) with (tally_from [] l).
  assert (Hnd : NoDup (map fst (tally_from [] l))) by (apply tally_from_NoDup; constructor).
  split; [exact Hnd |]. intros k c. split.
  - intros H. split.
    + destruct (tally_from_keys [] l) as (extra & He & Hi). cbn in He.
      apply Hi. rewrite <- He. apply in_map_iff. now exists (k, c).
    + now apply tally_counts.
  - intros [Hk ->].
    pose proof (tally_from_recorded [] l k) as Hr. cbn in Hr.
    rewrite <- Hr. apply recorded_pos_In. rewrite Hr. now apply occurrences_pos.
Qed.

Lemma value_counts_ranks (sort : list (string * nat) -> list (string * nat))
      (col : list (option string)) :
  sorts_by_count sort -> ranks (Pd.dropna_text col) (Pd.value_counts sort col).
Proof.
  intros Hsort. unfold Pd.value_counts.
  destruct (tally_ranks_but_order (Pd.dropna_text col)) as [Hnd Hin].
  destruct (Hsort (Pd.tally (Pd.dropna_text col))) as [Hp Hs].
  split; [| split].
  - eapply Permutation_NoDup; [| exact Hnd]. apply Permutation_map, Permutation_sym, Hp.
  - intros k c. rewrite <- Hin. split; apply Permutation_in; [exact Hp |].
    apply Permutation_sym, Hp.
  - exact Hs.
Qed.

(** The label that [idxmax] returns on a table of counts has the greatest
    count, whatever the sort does with equal counts. *)
Lemma idxmax_counts_greatest (sort : list (string * nat) -> list (string * nat))
      (col : list (option string)) :
  sorts_by_count sort ->
  (Pd.dropna_text col = [] ->
   Pd.idxmax_counts (Pd.value_counts sort col) = Py.Raise Py.ValueError) /\
  (Pd.dropna_text col <> [] ->
   exists t,
     Pd.idxmax_counts (Pd.value_counts sort col) = Py.Ok t /\
     In t (Pd.dropna_text col) /\
     forall u, occurrences (Pd.dropna_text col) u <= occurrences (Pd.dropna_text col) t).
Proof.
  intros Hsort. destruct (value_counts_ranks sort col Hsort) as (_ & Hin & Hs).
  set (tokens := Pd.dropna_text col) in *.
  destruct (Pd.value_counts sort col) as [| [t c] rest] eqn:E.
  - split; [reflexivity |]. intros Hne. destruct tokens as [| k tokens']; [easy |].
    destruct (proj2 (Hin k (occurrences (k :: tokens') k))).
    split; [now left | reflexivity].
  - assert (Ht : In t tokens /\ c = occurrences tokens t) by (apply Hin; now left).
    split; [intros H0; rewrite H0 in Ht; now destruct Ht |].
    intros _. exists t. inversion Hs as [| ? ? Hs' Hall]; subst.
    rewrite Forall_forall in Hall. split; [| split; [apply Ht |]].
    + unfold Pd.idxmax_counts. rewrite first_max_all_le; [reflexivity |].
      intros y Hy. exact (Hall y Hy).
    + intros u. destruct Ht as [_ Hc].
      destruct (in_dec string_dec u tokens) as [Hu | Hu].
      * assert (H : In (u, occurrences tokens u) ((t, c) :: rest))
          by (apply Hin; now split).
        destruct H as [[= <- <-] | H]; [lia |].
        specialize (Hall _ H). cbn in Hall. lia.
      * unfold occurrences at 1.
        rewrite (proj1 (count_occ_not_In string_dec tokens u) Hu). lia.
Qed.

Lemma idxmax_counts_unique (sort : list (string * nat) -> list (string * nat))
      (col : list (option string)) (t : string) :
  sorts_by_count sort ->
  In t (Pd.dropna_text col) ->
  (forall u, u <> t ->
             occurrences (Pd.dropna_text col) u < occurrences (Pd.dropna_text col) t) ->
  Pd.idxmax_counts (Pd.value_counts sort col) = Py.Ok t.
Proof.
  intros Hsort Hin Hlt.
  destruct (proj2 (idxmax_counts_greatest sort col Hsort)) as (t' & E & _ & Hmax).
  { intros H0. now rewrite H0 in Hin. }
  rewrite E. f_equal. destruct (string_dec t' t) as [-> | Hne]; [reflexivity |].
  specialize (Hlt t' Hne). specialize (Hmax t). lia.
Qed.

Section SortedBy.
Context {A : Type} (leb : A -> A -> bool) (R : A -> A -> Prop).
Hypothesis R_trans : forall a b c, R a b -> R b c -> R a c.
Hypothesis leb_R : forall a b, leb a b = true -> R a b.
Hypothesis not_leb_R : forall a b, leb a b = false -> R b a.

Lemma insert_StronglySorted (x : A) (l : list A) :
  StronglySorted R l -> StronglySorted R (Py.insert leb x l).
Proof.
  induction 1 as [| y l Hl IH Hy]; cbn.
  - repeat constructor.
  - destruct (leb x y) eqn:E.
    + constructor; [now constructor |]. constructor; [now apply leb_R |].
      eapply Forall_impl; [| exact Hy]. intros z Hz.
      eapply R_trans; [apply leb_R, E | exact Hz].
    + constructor; [exact IH |]. apply insert_Forall; [now apply not_leb_R | exact Hy].
Qed.

Lemma sorted_StronglySorted_by (l : list A) : StronglySorted R (Py.sorted leb l).
Proof.
  induction l as [| x l IH]; cbn; [constructor | now apply insert_StronglySorted].
Qed.
End SortedBy.

Lemma sort_keeping_ties_sorts : sorts_by_count sort_keeping_ties.
Proof.
  intros t. split; [apply sorted_Permutation |].
  apply sorted_StronglySorted_by.
  - intros a b c. lia.
  - intros a b. unfold count_ge. rewrite Nat.leb_le. lia.
  - intros a b. unfold count_ge. rewrite Nat.leb_gt. lia.
Qed.

Lemma sort_reversing_ties_sorts : sorts_by_count sort_reversing_ties.
Proof.
  intros t. split; [apply sorted_Permutation |].
  apply sorted_StronglySorted_by.
  - intros a b c. lia.
  - intros a b. unfold count_gt. rewrite Nat.ltb_lt. lia.
  - intros a b. unfold count_gt. rewrite Nat.ltb_ge. lia.
Qed.

Lemma string_leb_lt_or_eq (a b : string) :
  String.leb a b = true <-> String_as_OT.lt a b \/ a = b.
Proof.
  unfold String.leb. destruct (String.compare a b) eqn:E.
  - apply String_as_OT.cmp_eq in E. tauto.
  - apply String_as_OT.cmp_lt in E. tauto.
  - split; [discriminate |]. intros [H | H].
    + apply String_as_OT.cmp_lt in H. unfold String_as_OT.cmp in H. congruence.
    + apply String_as_OT.cmp_eq in H. unfold String_as_OT.cmp in H. congruence.
Qed.

Lemma string_leb_trans (a b c : string) :
  String.leb a b = true -> String.leb b c = true -> String.leb a c = true.
Proof.
  rewrite !string_leb_lt_or_eq. intros [H1 | ->] [H2 | ->]; auto.
  left. eapply String_as_OT.lt_trans; eassumption.
Qed.

Section SortedCanonical.
Context {A : Type} (leb : A -> A -> bool).
Hypothesis leb_total : forall a b, leb a b = true \/ leb b a = true.
Hypothesis leb_trans : forall a b c, leb a b = true -> leb b c = true -> leb a c = true.
Hypothesis leb_antisym : forall a b, leb a b = true -> leb b a = true -> a = b.

Lemma sorted_StronglySorted (l : list A) :
  StronglySorted (fun a b => leb a b = true) (Py.sorted leb l).
Proof.
  apply Sorted_StronglySorted.
  - intros a b c. apply leb_trans.
  - apply Sorted_LocallySorted_iff, sorted_LocallySorted, leb_total.
Qed.

Lemma StronglySorted_Permutation_eq (l1 l2 : list A) :
  StronglySorted (fun a b => leb a b = true) l1 ->
  StronglySorted (fun a b => leb a b = true) l2 ->
  Permutation l1 l2 -> l1 = l2.
Proof.
  intros H1. revert l2. induction H1 as [| x l1 H1 IH Hx]; intros l2 H2 Hp.
  - apply Permutation_nil in Hp. now subst.
  - destruct H2 as [| y l2 H2 Hy].
    + apply Permutation_sym, Permutation_nil in Hp. discriminate.
    + assert (x = y) as ->.
      { rewrite Forall_forall in Hx, Hy.
        assert (Hxy : In x (y :: l2)) by (eapply Permutation_in; [exact Hp | now left]).
        assert (Hyx : In y (x :: l1))
          by (eapply Permutation_in; [apply Permutation_sym, Hp | now left]).
        destruct Hxy as [-> | Hxy]; [reflexivity |].
        destruct Hyx as [-> | Hyx]; [reflexivity |].
        apply leb_antisym; auto. }
      f_equal. apply IH; [assumption |]. eapply Permutation_cons_inv, Hp.
Qed.

Lemma sorted_canonical (l1 l2 : list A) :
  Permutation l1 l2 -> Py.sorted leb l1 = Py.sorted leb l2.
Proof.
  intros H. apply StronglySorted_Permutation_eq; try apply sorted_StronglySorted.
  rewrite !sorted_Permutation. exact H.
Qed.
End SortedCanonical.

Lemma clean_genre_canonical (g1 g2 : string) :
  Permutation (map Py.strip (Py.split "," g1)) (map Py.strip (Py.split "," g2)) ->
  clean_genre g1 = clean_genre g2.
Proof.
  intros H. unfold clean_genre. f_equal.
  apply sorted_canonical;
    [apply String.leb_total | apply string_leb_trans | apply String.leb_antisym | exact H].
Qed.

Lemma main_raises_without_runtime_digits
      (parse : string -> option Q) (sort : list (string * nat) -> list (string * nat))
      (data : list Csv.line) (df : frame) (r : row) (s : string) :
  snd (IMDB_data_analysis.clean parse (read_csv data)) = Py.Ok df ->
  In r df -> Runtime r = Some s -> no_digit s ->
  (exists e, snd (IMDB_data_analysis.main parse sort data) = Py.Raise e) /\
  (exists e, snd (imdb.main parse sort data) = Py.Raise e).
Proof.
  intros Hc Hin Hs Hd. split.
  - unfold IMDB_data_analysis.main. cbv zeta.
    rewrite snd_bind, Hc, snd_bind, feature_engineering_snd.
    destruct (extract_Runtime_Minutes_raises
                (read_as_object parse (map Csv.Runtime data)) df r Hin) as (e & ->);
      [right; left; now exists s | now exists e].
  - assert (Hc' : snd (imdb.clean parse (read_csv data)) = Py.Ok df).
    { destruct (clean_result parse (read_csv data)) as (h & Ha & Hb & _).
      rewrite Hb, <- Ha. exact Hc. }
    unfold imdb.main. cbv zeta.
    rewrite snd_bind, Hc', snd_bind, feature_extraction_snd.
    unfold imdb.assign_Num_Genres.
    destruct (read_as_object parse (map Csv.Genre data)); [| now exists Py.AttributeError].
    match goal with
    | |- context [extract_Runtime_Minutes ?t (map ?f df)] =>
        destruct (extract_Runtime_Minutes_raises t (map f df) (f r) (in_map f df r Hin))
          as (e & ->); [right; left; now exists s | now exists e]
    end.
Qed.

Lemma int_snoc (s : string) (c : ascii) :
  Py.int (s ++ String c EmptyString) = (10 * Py.int s + Py.digit_value c)%Z.
Proof.
  unfold Py.int. generalize 0%Z. induction s as [| d s IH]; intros acc; cbn; [reflexivity |].
  apply IH.
Qed.

Lemma wrap64_in_range (z : Z) :
  (Pd.int64_min <= z <= Pd.int64_max)%Z -> Pd.wrap64 z = z.
Proof.
  unfold Pd.wrap64, Pd.int64_min, Pd.int64_max. intros H.
  rewrite Z.mod_small; lia.
Qed.

Lemma decade_in_range (y : Z) :
  (-9223372036854775800 <= y <= Pd.int64_max)%Z -> Pd.decade y = (y / 10 * 10)%Z.
Proof.
  unfold Pd.decade, Pd.int64_max. intros H. apply wrap64_in_range.
  unfold Pd.int64_min, Pd.int64_max.
  pose proof (Z.div_mod y 10 ltac:(lia)) as Hdm.
  pose proof (Z.mod_pos_bound y 10 ltac:(lia)) as Hb. lia.
Qed.

Lemma decade_below_range (y : Z) :
  (Pd.int64_min <= y < -9223372036854775800)%Z -> Pd.decade y = 9223372036854775806%Z.
Proof.
  unfold Pd.decade, Pd.int64_min. intros H.
  assert (E : (y / 10 = -922337203685477581)%Z).
  { symmetry. apply (Z.div_unique y 10 _ (y + 9223372036854775810)); lia. }
  rewrite E. reflexivity.
Qed.

(** ** Main results *)

(** C1: insights on an empty cleaned table.  On the empty frame the insight
    block of IMDB_data_analysis.py logs its header and then raises ValueError
    at the first lookup ([idxmax] of an empty column), so none of its three
    lookups is reported as unavailable.  The insight block of imdb.py guards
    its two lookups and logs one warning for each; it has no director lookup.
    On a file whose only film has no genre the run of IMDB_data_analysis.py
    cleans the table, finishes the feature steps, logs the header of the
    insights and ends with that ValueError; the run of imdb.py on this file
    ends earlier, with the AttributeError of [.str] on a genre column that
    holds no text. *)
Theorem insights_on_empty_frame
        (sort : list (string * nat) -> list (string * nat))
        (Hsort : sorts_by_count sort) :
  IMDB_data_analysis.insights sort [] = ([Info_key_insights], Py.Raise Py.ValueError) /\
  imdb.insights sort []
  = ([Warning_no_highest_grossing; Warning_no_most_common_genre], Py.Ok tt) /\
  IMDB_data_analysis.main parse_decimal sort no_genre_data
  = ([Info_filled_gross (Pd.Float 67436818); Info_cleaning_complete; Info_key_insights],
     Py.Raise Py.ValueError) /\
  snd (imdb.main parse_decimal sort no_genre_data) = Py.Raise Py.AttributeError.
Proof.
  assert (E : sort [] = []) by (apply Permutation_nil, Permutation_sym, Hsort).
  split; [reflexivity |]. split; [| split; reflexivity].
  unfold imdb.insights, most_common_genre_of, Pd.value_counts.
  cbn [map Pd.str_split_explode flat_map Pd.dropna_text Pd.tally fold_left].
  rewrite E. reflexivity.
Qed.

Lemma insights_on_empty_frame_witness :
  IMDB_data_analysis.insights sort_keeping_ties []
  = ([Info_key_insights], Py.Raise Py.ValueError) /\
  imdb.insights sort_keeping_ties []
  = ([Warning_no_highest_grossing; Warning_no_most_common_genre], Py.Ok tt).
Proof.
  destruct (insights_on_empty_frame sort_keeping_ties sort_keeping_ties_sorts)
    as (H1 & H2 & _).
  split; [exact H1 | exact H2].
Defined.

(** C2, counterexample: a frame whose gross values are all missing after
    coercion.  IMDB_data_analysis.py logs nothing but its notice that the
    missing values were filled (with the undefined median), and imdb.py logs
    nothing at all: neither reports an empty column. *)
Lemma gross_all_missing_not_reported :
  Pd.numeric_values (map Gross (coerce_Gross parse_decimal all_gross_missing)) = [] /\
  fst (IMDB_data_analysis.process_Gross parse_decimal all_gross_missing)
  = [Info_filled_gross Pd.NaN] /\
  ~ reports_empty_gross_column
      (fst (IMDB_data_analysis.process_Gross parse_decimal all_gross_missing)) /\
  fst (imdb.process_Gross parse_decimal all_gross_missing) = [] /\
  ~ reports_empty_gross_column (fst (imdb.process_Gross parse_decimal all_gross_missing)).
Proof.
  repeat split.
  - intros (r & [<- | []] & H). exact H.
  - intros (r & [] & _).
Qed.

(** C2, as amended: when no gross value is left after separator stripping
    and coercion, the median is NaN, the fill with it changes nothing and
    every gross value stays missing; IMDB_data_analysis.py logs its usual fill
    notice with the NaN median and imdb.py logs nothing. *)
Theorem gross_all_missing_left_missing
  (parse : string -> option Q) (df : frame)
  (Hall : Pd.numeric_values (map Gross (coerce_Gross parse df)) = []) :
  Pd.median (map Gross (coerce_Gross parse df)) = Pd.NaN /\
  IMDB_data_analysis.process_Gross parse df
  = ([Info_filled_gross Pd.NaN], Py.Ok (coerce_Gross parse df)) /\
  imdb.process_Gross parse df = ([], Py.Ok (coerce_Gross parse df)) /\
  Forall (fun c => c = Pd.NaN) (map Gross (coerce_Gross parse df)).
Proof.
  pose proof (median_no_value _ Hall) as Hm.
  unfold IMDB_data_analysis.process_Gross, imdb.process_Gross.
  rewrite Hm, fill_Gross_NaN. repeat split.
  apply no_value_all_NaN; [apply coerce_Gross_not_str | assumption].
Qed.

Lemma gross_all_missing_left_missing_witness :
  Pd.numeric_values (map Gross (coerce_Gross parse_decimal all_gross_missing)) = [] /\
  IMDB_data_analysis.process_Gross parse_decimal all_gross_missing
  = ([Info_filled_gross Pd.NaN], Py.Ok (coerce_Gross parse_decimal all_gross_missing)).
Proof.
  split; [reflexivity |].
  apply (gross_all_missing_left_missing parse_decimal all_gross_missing).
  reflexivity.
Defined.

(** C3: titles of the cleaned table are unique, first occurrences win, order
    is kept.  De-duplication leaves no title twice and leaves the rows in
    their order; the row at any position is kept exactly when its title does
    not occur in an earlier row.  In both scripts a run that succeeds ends
    with a frame of unique titles whose (index, title) pairs are a
    subsequence of those of the frame read, with increasing index labels. *)
Theorem cleaned_titles_unique_first_kept :
  (forall df : frame,
      NoDup (map Series_Title (drop_duplicate_titles df)) /\
      subseq (drop_duplicate_titles df) df) /\
  (forall (pre post : frame) (r : row),
      exists rest : frame,
        drop_duplicate_titles (pre ++ r :: post)
        = drop_duplicate_titles pre
          ++ (if existsb (option_string_eqb (Series_Title r)) (map Series_Title pre)
              then [] else [r])
          ++ rest
        /\ subseq rest post) /\
  (forall (parse : string -> option Q) (sort : list (string * nat) -> list (string * nat))
          (data : list Csv.line),
      match snd (IMDB_data_analysis.main parse sort data) with
      | Py.Ok df =>
          NoDup (map Series_Title df) /\
          subseq (map row_key df) (map row_key (read_csv data)) /\
          StronglySorted lt (map index df)
      | Py.Raise _ => True
      end /\
      match snd (imdb.main parse sort data) with
      | Py.Ok df =>
          NoDup (map Series_Title df) /\
          subseq (map row_key df) (map row_key (read_csv data)) /\
          StronglySorted lt (map index df)
      | Py.Raise _ => True
      end).
Proof.
  assert (Hsorted : forall data (df : frame),
             subseq (map row_key df) (map row_key (read_csv data)) ->
             StronglySorted lt (map index df)).
  { intros data df H. apply (subseq_map fst) in H. rewrite !map_map in H. cbn in H.
    eapply subseq_StronglySorted; [exact H |].
    change (map (fun x => index x) (read_csv data)) with (map index (read_csv data)).
    rewrite read_csv_index. apply seq_StronglySorted. }
  split; [| split].
  - intros df. split; [apply drop_duplicate_titles_NoDup | apply drop_duplicate_titles_subseq].
  - intros pre post r. apply drop_duplicates_position, option_string_eqb_spec.
  - intros parse sort data. split.
    + destruct (snd (IMDB_data_analysis.main parse sort data)) as [df |] eqn:E; [| exact I].
      apply main_inv_IMDB_data_analysis in E as (rt & gt & df0 & H0 & H1).
      assert (Hk : subseq (map row_key df) (map row_key (read_csv data))).
      { eapply subseq_trans; [eapply feature_engineering_keys, H1 | eapply clean_keys, H0]. }
      repeat split; [| exact Hk | eapply Hsorted, Hk].
      apply feature_engineering_inv in H1 as (? & ? & _ & _ & ->).
      apply drop_duplicate_titles_NoDup.
    + destruct (snd (imdb.main parse sort data)) as [df |] eqn:E; [| exact I].
      apply main_inv_imdb in E as (rt & gt & df0 & H0 & H1).
      assert (Hk : subseq (map row_key df) (map row_key (read_csv data))).
      { eapply subseq_trans; [eapply feature_extraction_keys, H1 |].
        eapply clean_keys.
        destruct (clean_result parse (read_csv data)) as (h & Ha & Hb & _).
        rewrite Ha, <- Hb. exact H0. }
      repeat split; [| exact Hk | eapply Hsorted, Hk].
      apply feature_extraction_inv in H1 as (? & ? & ? & _ & _ & _ & ->).
      apply drop_duplicate_titles_NoDup.
Qed.

(** C4: no null in the cleaned rows.  The cleaning steps of both scripts
    always succeed, with the same frame; each of its rows has a certificate,
    a genre, a director, a title and an integer release year; its rows are,
    in order, those given rows that have genre, director, title and a release
    year that reads as a number, with a missing certificate replaced by
    "Not Rated".  A successful run of IMDB_data_analysis.py ends with such
    rows too. *)
Theorem cleaned_rows_have_no_null :
  (forall (parse : string -> option Q) (df : frame),
      exists df' : frame,
        snd (IMDB_data_analysis.clean parse df) = Py.Ok df' /\
        snd (imdb.clean parse df) = Py.Ok df' /\
        Forall cleaned_row df' /\
        Forall2 (fun r r' =>
                   index r' = index r /\ Series_Title r' = Series_Title r /\
                   Certificate r'
                   = match Certificate r with
                     | None => Some "Not Rated"
                     | Some c => Some c
                     end)
                (filter (complete_row parse) df) df') /\
  (forall (parse : string -> option Q) (sort : list (string * nat) -> list (string * nat))
          (data : list Csv.line),
      match snd (IMDB_data_analysis.main parse sort data) with
      | Py.Ok df => Forall cleaned_row df
      | Py.Raise _ => True
      end).
Proof.
  split.
  - intros parse df. destruct (clean_result parse df) as (h & Ha & Hb & Hh).
    exists (map h (filter (complete_row parse) df)).
    split; [exact Ha |]. split; [exact Hb |]. split; [eapply clean_cleaned, Ha |].
    clear Ha Hb.
    induction (filter (complete_row parse) df) as [| r l IH]; cbn; constructor; auto.
    destruct (Hh r) as (-> & -> & _ & _ & _ & -> & _).
    repeat split. now destruct (Certificate r).
  - intros parse sort data.
    destruct (snd (IMDB_data_analysis.main parse sort data)) as [df |] eqn:E; [| exact I].
    apply main_inv_IMDB_data_analysis in E as (rt & gt & df0 & H0 & H1).
    eapply feature_engineering_cleaned; [exact H1 |]. eapply clean_cleaned, H0.
Qed.

(** C5: gross imputation.  When some gross value is left after separator
    stripping and coercion, both scripts fill with the median of exactly
    those values: every missing cell becomes that median and every other
    cell is unchanged.  On text values 1,000 2,000 (none) 3,000 the result
    is 1000 2000 2000 3000, and on numbers 10 20 (none) 30 the missing one
    becomes 20. *)
Theorem gross_filled_with_median_of_parseable :
  (forall (parse : string -> option Q) (df : frame),
      let col := map Gross (coerce_Gross parse df) in
      Pd.numeric_values col <> [] ->
      exists m : Q,
        is_median (Pd.numeric_values col) m /\
        snd (IMDB_data_analysis.process_Gross parse df)
        = Py.Ok (fill_Gross (Pd.Float m) (coerce_Gross parse df)) /\
        snd (imdb.process_Gross parse df)
        = Py.Ok (fill_Gross (Pd.Float m) (coerce_Gross parse df)) /\
        map Gross (fill_Gross (Pd.Float m) (coerce_Gross parse df))
        = map (fun c => if Pd.isna c then Pd.Float m else c) col) /\
  result_map (map Gross) (snd (IMDB_data_analysis.process_Gross parse_decimal gross_sample))
  = Py.Ok [Pd.Float 1000; Pd.Float 2000; Pd.Float 2000; Pd.Float 3000] /\
  result_map (map Gross) (snd (imdb.process_Gross parse_decimal gross_sample))
  = Py.Ok [Pd.Float 1000; Pd.Float 2000; Pd.Float 2000; Pd.Float 3000] /\
  map (Pd.fillna (Pd.median [Pd.Float 10; Pd.Float 20; Pd.NaN; Pd.Float 30]))
      [Pd.Float 10; Pd.Float 20; Pd.NaN; Pd.Float 30]
  = [Pd.Float 10; Pd.Float 20; Pd.Float 20; Pd.Float 30].
Proof.
  split; [| repeat split].
  intros parse df col Hne.
  destruct (median_spec col Hne) as (m & Hm & Hmed).
  exists m. split; [assumption |].
  unfold IMDB_data_analysis.process_Gross, imdb.process_Gross.
  fold col. rewrite Hm. cbn. repeat split.
  rewrite Gross_fill_Gross. reflexivity.
Qed.

Lemma gross_filled_with_median_witness :
  Pd.numeric_values (map Gross (coerce_Gross parse_decimal gross_sample)) <> [] /\
  exists m : Q,
    snd (IMDB_data_analysis.process_Gross parse_decimal gross_sample)
    = Py.Ok (fill_Gross (Pd.Float m) (coerce_Gross parse_decimal gross_sample)).
Proof.
  assert (H : Pd.numeric_values (map Gross (coerce_Gross parse_decimal gross_sample)) <> [])
    by (vm_compute; discriminate).
  split; [exact H |].
  destruct (proj1 gross_filled_with_median_of_parseable parse_decimal gross_sample H)
    as (m & _ & Hm & _).
  exists m. exact Hm.
Defined.

(** C6, counterexample: runtime texts that hold digits and yet give no
    [Runtime_Minutes].  A run of twenty digits is read as a Python integer
    that does not fit 64 bits, and the cast raises OverflowError; and when
    every runtime field of the file is a plain number the column is read as
    integers, on which [.str] raises AttributeError.  Either exception ends
    the run of both scripts. *)
Lemma runtime_digits_without_minutes :
  first_digit_run "99999999999999999999 min" "99999999999999999999" /\
  extract_Runtime_Minutes true (runtime_rows ["170 min"; "99999999999999999999 min"])
  = Py.Raise Py.OverflowError /\
  snd (IMDB_data_analysis.main parse_decimal sort_keeping_ties long_runtime_data)
  = Py.Raise Py.OverflowError /\
  snd (imdb.main parse_decimal sort_keeping_ties long_runtime_data)
  = Py.Raise Py.OverflowError /\
  first_digit_run "170" "170" /\ first_digit_run "162" "162" /\
  map Csv.Runtime numeric_runtime_data = [Some "170"; Some "162"] /\
  read_as_object parse_decimal (map Csv.Runtime numeric_runtime_data) = false /\
  snd (IMDB_data_analysis.main parse_decimal sort_keeping_ties numeric_runtime_data)
  = Py.Raise Py.AttributeError /\
  snd (imdb.main parse_decimal sort_keeping_ties numeric_runtime_data)
  = Py.Raise Py.AttributeError.
Proof.
  split.
  { exists EmptyString, " min". cbn. repeat split; discriminate. }
  do 3 (split; [reflexivity |]).
  split.
  { exists EmptyString, EmptyString. cbn. repeat split; discriminate. }
  split.
  { exists EmptyString, EmptyString. cbn. repeat split; discriminate. }
  repeat split.
Qed.

(** C6, as amended: runtime extraction.  Every text that holds a digit has
    a first maximal run of digits.  When the [Runtime] column was read as
    text and every row's text has such a run of value at most 2^63 - 1, the
    extraction succeeds and gives each row the integer value of that run
    ("142 min" gives 142), [int] being the decimal value of the digits.
    When some row has no runtime, a text without digit or a run above
    2^63 - 1, the extraction raises, and on a column not read as text it
    raises AttributeError; a text without digit among texts and runs that
    fit raises ValueError.  When a row without digit survives the cleaning,
    the run of either script ends with an exception: no value, zero or
    other, is put in its place. *)
Theorem runtime_minutes_first_digit_run :
  (forall s : string, ~ no_digit s -> exists run, first_digit_run s run) /\
  (forall df : frame,
      (forall r, In r df ->
                 exists s run, Runtime r = Some s /\ first_digit_run s run /\
                               (Py.int run <= Pd.int64_max)%Z) ->
      exists df',
        extract_Runtime_Minutes true df = Py.Ok df' /\
        Forall2 (fun r r' =>
                   exists s run,
                     Runtime r = Some s /\ first_digit_run s run /\
                     r' = set_Runtime_Minutes (Pd.Int (Py.int run)) r) df df') /\
  (forall (Runtime_object : bool) (df : frame) (r : row),
      In r df ->
      (Runtime r = None \/
       (exists s, Runtime r = Some s /\ no_digit s) \/
       (exists s run, Runtime r = Some s /\ first_digit_run s run /\
                      (Pd.int64_max < Py.int run)%Z)) ->
      exists e, extract_Runtime_Minutes Runtime_object df = Py.Raise e) /\
  (forall df : frame, extract_Runtime_Minutes false df = Py.Raise Py.AttributeError) /\
  (forall (df : frame) (r : row) (s : string),
      In r df -> Runtime r = Some s -> no_digit s ->
      (forall r' s' run, In r' df -> Runtime r' = Some s' -> first_digit_run s' run ->
                         (Py.int run <= Pd.int64_max)%Z) ->
      extract_Runtime_Minutes true df = Py.Raise Py.ValueError) /\
  (forall (parse : string -> option Q) (sort : list (string * nat) -> list (string * nat))
          (data : list Csv.line) (df : frame) (r : row) (s : string),
      snd (IMDB_data_analysis.clean parse (read_csv data)) = Py.Ok df ->
      In r df -> Runtime r = Some s -> no_digit s ->
      (exists e, snd (IMDB_data_analysis.main parse sort data) = Py.Raise e) /\
      (exists e, snd (imdb.main parse sort data) = Py.Raise e)) /\
  Py.int EmptyString = 0%Z /\
  (forall (s : string) (c : ascii),
      Py.int (s ++ String c EmptyString) = (10 * Py.int s + Py.digit_value c)%Z) /\
  map Py.digit_value ["0"; "1"; "2"; "3"; "4"; "5"; "6"; "7"; "8"; "9"]%char
  = [0; 1; 2; 3; 4; 5; 6; 7; 8; 9]%Z /\
  result_map (map Runtime_Minutes) (extract_Runtime_Minutes true (runtime_rows ["142 min"]))
  = Py.Ok [Pd.Int 142].
Proof.
  split; [exact first_digit_run_exists |].
  split; [exact extract_Runtime_Minutes_ok |].
  split; [exact extract_Runtime_Minutes_raises |].
  split; [reflexivity |].
  split; [exact extract_Runtime_Minutes_ValueError |].
  split; [exact main_raises_without_runtime_digits |].
  split; [reflexivity |].
  split; [exact int_snoc |].
  split; reflexivity.
Qed.

Lemma runtime_minutes_first_digit_run_witness :
  (exists df',
      extract_Runtime_Minutes true (runtime_rows ["142 min"; "1h 35"]) = Py.Ok df' /\
      Forall2 (fun r r' =>
                 exists s run,
                   Runtime r = Some s /\ first_digit_run s run /\
                   r' = set_Runtime_Minutes (Pd.Int (Py.int run)) r)
              (runtime_rows ["142 min"; "1h 35"]) df') /\
  exists e, extract_Runtime_Minutes true (runtime_rows ["142 min"; "two hours"]) = Py.Raise e.
Proof.
  split.
  - apply (proj1 (proj2 runtime_minutes_first_digit_run)).
    intros r [<- | [<- | []]].
    + exists "142 min", "142". split; [reflexivity |]. split; [| vm_compute; discriminate].
      exists EmptyString, " min". cbn. repeat split; discriminate.
    + exists "1h 35", "1". split; [reflexivity |]. split; [| vm_compute; discriminate].
      exists EmptyString, "h 35". cbn. repeat split; discriminate.
  - apply (proj1 (proj2 (proj2 runtime_minutes_first_digit_run)) true
             (runtime_rows ["142 min"; "two hours"])
             (nth 1 (runtime_rows ["142 min"; "two hours"])
                  (load_line 0 (movie None None None None None None None)))).
    + right. left. reflexivity.
    + right. left. exists "two hours". split; [reflexivity |]. cbn. repeat split.
Defined.

(** C7, counterexample: the least 64-bit year.  The product of the floor
    division wraps around: the decade of -9223372036854775808 is
    9223372036854775806, which is above the year and no multiple of ten.
    The year text 99999999999999999999 reaches it: it is read as a float
    outside the 64-bit range, which the cast turns into the least integer. *)
Lemma decade_of_least_year_wraps :
  Pd.decade Pd.int64_min = 9223372036854775806%Z /\
  Pd.decade Pd.int64_min <> (Pd.int64_min / 10 * 10)%Z /\
  ~ (Pd.decade Pd.int64_min <= Pd.int64_min)%Z /\
  (Pd.decade Pd.int64_min mod 10)%Z <> 0%Z /\
  result_map (fun df => map (fun r => (Released_Year r, Decade r)) (assign_Decade df))
             (process_Released_Year parse_decimal (year_rows ["99999999999999999999"]))
  = Py.Ok [(Pd.Int Pd.int64_min, Pd.Int 9223372036854775806)].
Proof.
  split; [reflexivity |]. split; [vm_compute; discriminate |].
  split; [vm_compute; intros H; now apply H |].
  split; [vm_compute; discriminate | reflexivity].
Qed.

(** C7, as amended: decade bucketing.  For every 64-bit year from
    -9223372036854775800 up the decade is the year floor-divided by ten,
    times ten: the greatest multiple of ten not above the year.  For the
    eight years below, the product wraps around to 9223372036854775806.  The
    decade column is that function of the release-year column.  Every year
    from 1920 to 1929 gives 1920, 1994 gives 1990 and 2005 gives 2000. *)
Theorem decade_floors_to_multiple_of_ten :
  (forall y : Z,
      (-9223372036854775800 <= y <= Pd.int64_max)%Z ->
      Pd.decade y = (y / 10 * 10)%Z /\
      (Pd.decade y <= y < Pd.decade y + 10)%Z /\
      (Pd.decade y mod 10 = 0)%Z /\
      Pd.floordiv10_mul10 (Pd.Int y) = Pd.Int (y / 10 * 10)%Z) /\
  (forall y : Z,
      (Pd.int64_min <= y < -9223372036854775800)%Z ->
      Pd.decade y = 9223372036854775806%Z) /\
  (forall df : frame,
      map Decade (assign_Decade df)
      = map (fun r => Pd.floordiv10_mul10 (Released_Year r)) df) /\
  map Pd.decade [1920; 1921; 1922; 1923; 1924; 1925; 1926; 1927; 1928; 1929]%Z
  = repeat 1920%Z 10 /\
  Pd.decade 1994 = 1990%Z /\
  Pd.decade 2005 = 2000%Z.
Proof.
  split; [| split; [exact decade_below_range | split; [| repeat split]]].
  - intros y Hy. unfold Pd.floordiv10_mul10. rewrite (decade_in_range y Hy).
    pose proof (Z.div_mod y 10 ltac:(lia)) as Hdm.
    pose proof (Z.mod_pos_bound y 10 ltac:(lia)) as Hb.
    repeat split; try lia.
    apply Z.mod_mul; lia.
  - intros df. unfold assign_Decade. rewrite map_map. reflexivity.
Qed.

Lemma decade_floors_to_multiple_of_ten_witness :
  (-9223372036854775800 <= 1994 <= Pd.int64_max)%Z /\
  (Pd.decade 1994 <= 1994 < Pd.decade 1994 + 10)%Z.
Proof.
  assert (H : (-9223372036854775800 <= 1994 <= Pd.int64_max)%Z)
    by (unfold Pd.int64_max; lia).
  split; [exact H |].
  exact (proj1 (proj2 (proj1 decade_floors_to_multiple_of_ten 1994%Z H))).
Defined.

(** C8: genre normalisation is idempotent and canonical.  Normalising a
    normalised genre string changes nothing; "Drama, Comedy" and
    "Comedy, Drama" both normalise to "Comedy, Drama"; and any two genre
    strings whose trimmed pieces are the same up to order normalise to the
    same string. *)
Theorem clean_genre_idempotent :
  (forall g : string, clean_genre (clean_genre g) = clean_genre g) /\
  clean_genre "Drama, Comedy" = "Comedy, Drama" /\
  clean_genre "Comedy, Drama" = "Comedy, Drama" /\
  (forall g1 g2 : string,
      Permutation (map Py.strip (Py.split "," g1)) (map Py.strip (Py.split "," g2)) ->
      clean_genre g1 = clean_genre g2).
Proof.
  split; [| split; [reflexivity | split; [reflexivity | exact clean_genre_canonical]]].
  intros g. unfold clean_genre at 2 3.
  set (parts := Py.sorted String.leb (map Py.strip (Py.split "," g))).
  assert (Hcomma : Forall no_comma parts).
  { apply sorted_Forall, Forall_map.
    eapply Forall_impl; [| apply split_pieces_no_comma].
    intros; now apply strip_no_comma. }
  assert (Hstrip : Forall (fun t => Py.strip t = t) parts).
  { apply sorted_Forall, Forall_map, Forall_forall.
    intros; apply strip_idempotent. }
  assert (Hsorted : Py.sorted String.leb parts = parts).
  { apply sorted_fixed, sorted_LocallySorted, String.leb_total. }
  assert (Hne : parts <> []).
  { apply sorted_not_nil. unfold Py.split.
    destruct (Py.split_go "," 0 g); discriminate. }
  destruct parts as [| t ts]; [easy |].
  unfold clean_genre. rewrite (split_join_comma _ _ Hcomma).
  cbn [map]. rewrite map_map.
  replace (Py.strip t :: map (fun x => Py.strip (String " "%char x)) ts) with (t :: ts).
  - now rewrite Hsorted.
  - inversion Hstrip as [| ? ? H1 H2]; subst. f_equal; [easy |].
    clear - H2. induction H2 as [| u ts Hu _ IH]; [reflexivity |].
    cbn [map]. rewrite strip_after_space, Hu. now f_equal.
Qed.

Lemma clean_genre_idempotent_witness :
  clean_genre "Drama , Comedy" = clean_genre "Comedy,Drama".
Proof.
  apply (proj2 (proj2 (proj2 clean_genre_idempotent))).
  cbn. apply perm_swap.
Defined.

(** C9, counterexample: a tie not won by the token met first.  The sort by
    count may leave equal counts in any order.  With a sort that reverses
    them, on the genres G00 G01 G02 G03 G03 G02 the lookup returns G03,
    though G02, of the same count, was met before it; a sort that keeps
    equal counts in the order given returns G02. *)
Lemma most_common_genre_tie_last_met :
  sorts_by_count sort_reversing_ties /\
  sorts_by_count sort_keeping_ties /\
  Pd.dropna_text
    (Pd.str_split_explode ", "
       (map Genre (genre_rows ["G00"; "G01"; "G02"; "G03"; "G03"; "G02"])))
  = ["G00"; "G01"; "G02"; "G03"; "G03"; "G02"] /\
  most_common_genre_of sort_reversing_ties
    (genre_rows ["G00"; "G01"; "G02"; "G03"; "G03"; "G02"]) = Py.Ok "G03" /\
  most_common_genre_of sort_keeping_ties
    (genre_rows ["G00"; "G01"; "G02"; "G03"; "G03"; "G02"]) = Py.Ok "G02".
Proof.
  split; [exact sort_reversing_ties_sorts |].
  split; [exact sort_keeping_ties_sorts |].
  repeat split.
Qed.

(** C9, as amended: most common genre.  The genre tokens are read row by
    row and, within a row, in the order of its normalised genre string.
    Whatever the sort by count does with equal counts, the lookup raises
    ValueError when there is no token and otherwise returns a token that
    occurs at least as often as every other; a token that occurs strictly
    more often than every other is the one returned.  Which of several
    tokens of greatest count is returned is left to the sort. *)
Theorem most_common_genre_greatest_count
        (sort : list (string * nat) -> list (string * nat))
        (Hsort : sorts_by_count sort) (df : frame) :
  let tokens := Pd.dropna_text (Pd.str_split_explode ", " (map Genre df)) in
  (tokens = [] -> most_common_genre_of sort df = Py.Raise Py.ValueError) /\
  (tokens <> [] ->
   exists t, most_common_genre_of sort df = Py.Ok t /\ In t tokens /\
             forall u, occurrences tokens u <= occurrences tokens t) /\
  (forall t,
      In t tokens ->
      (forall u, u <> t -> occurrences tokens u < occurrences tokens t) ->
      most_common_genre_of sort df = Py.Ok t).
Proof.
  intros tokens. unfold most_common_genre_of.
  destruct (idxmax_counts_greatest sort (Pd.str_split_explode ", " (map Genre df)) Hsort)
    as [H0 H1].
  split; [exact H0 |]. split; [exact H1 |].
  intros t Ht Hlt. now apply idxmax_counts_unique.
Qed.

Lemma most_common_genre_greatest_count_witness :
  sorts_by_count sort_reversing_ties /\
  most_common_genre_of sort_reversing_ties
    (genre_rows ["Drama"; "Comedy, Drama"; "Comedy"; "Action, Comedy"])
  = Py.Ok "Comedy".
Proof.
  split; [exact sort_reversing_ties_sorts |].
  apply (proj2 (proj2 (most_common_genre_greatest_count
                         sort_reversing_ties sort_reversing_ties_sorts
                         (genre_rows ["Drama"; "Comedy, Drama"; "Comedy"; "Action, Comedy"])))).
  - vm_compute. tauto.
  - intros u Hu. unfold occurrences. cbn [count_occ genre_rows].
    vm_compute Pd.dropna_text.
    cbn [count_occ].
    repeat match goal with
           | |- context [string_dec ?a u] =>
               destruct (string_dec a u) as [<- | ?]
           end; try congruence; cbn; lia.
Defined.

(** C10: the two scripts keep the same rows.  A missing release year
    coerces to a missing number, so dropping rows without a year in the
    critical-field filter (IMDB_data_analysis.py) or only after the coercion
    (imdb.py) gives the same frame: the year step yields the same result
    after either filter, and the cleaning steps of the two scripts yield the
    same frame.  After the feature steps, when the [Genre] column was read
    as text, the two scripts fail alike or hold rows of the same index
    labels and titles.  When it was not, imdb.py raises AttributeError on
    [.str] (line 96), which IMDB_data_analysis.py does not call there: on
    the file whose only film has no genre its feature steps end with the
    empty frame. *)
Theorem variants_keep_same_rows (parse : string -> option Q) :
  Pd.to_numeric parse Pd.NaN = Pd.NaN /\
  (forall df : frame,
      process_Released_Year parse (IMDB_data_analysis.drop_critical df)
      = process_Released_Year parse (imdb.drop_critical df)) /\
  (forall df : frame,
      snd (IMDB_data_analysis.clean parse df) = snd (imdb.clean parse df)) /\
  (forall (Runtime_object : bool) (df : frame),
      result_map (map row_key)
        (snd (df' <- IMDB_data_analysis.clean parse df ;;
              IMDB_data_analysis.feature_engineering Runtime_object true df'))
      = result_map (map row_key)
          (snd (df' <- imdb.clean parse df ;;
                imdb.feature_extraction parse Runtime_object true df'))) /\
  (forall (Runtime_object : bool) (df : frame),
      snd (df' <- imdb.clean parse df ;;
           imdb.feature_extraction parse Runtime_object false df')
      = Py.Raise Py.AttributeError) /\
  read_as_object parse_decimal (map Csv.Genre no_genre_data) = false /\
  snd (df' <- IMDB_data_analysis.clean parse_decimal (read_csv no_genre_data) ;;
       IMDB_data_analysis.feature_engineering true false df')
  = Py.Ok [].
Proof.
  split; [reflexivity |]. split; [| split; [| split; [| split; [| split; reflexivity]]]].
  - intros df.
    now rewrite !process_Released_Year_eq, kept_rows_IMDB_data_analysis, kept_rows_imdb.
  - intros df. destruct (clean_result parse df) as (h & Ha & Hb & _). now rewrite Ha, Hb.
  - intros rt df. rewrite !snd_bind.
    destruct (clean_result parse df) as (h & Ha & Hb & _). rewrite Ha, Hb.
    pose proof (feature_blocks_agree parse rt (map h (filter (complete_row parse) df))) as H.
    destruct (snd (IMDB_data_analysis.feature_engineering _ _ _)),
             (snd (imdb.feature_extraction parse _ _ _)); cbn in *; try contradiction.
    + f_equal. symmetry. now apply same_source_keys.
    + now f_equal.
  - intros rt df. rewrite snd_bind.
    destruct (clean_result parse df) as (h & _ & Hb & _). rewrite Hb.
    now rewrite feature_extraction_snd.
Qed.

(** ** Further results *)

Lemma get_csv_path_same (isfile : string -> bool) (path : string) (stdin : list stdin_event) :
  imdb_get_csv_path isfile path stdin = IMDB_data_analysis_get_csv_path isfile path stdin.
Proof.
  revert path. induction stdin as [| e stdin IH]; intros path; cbn.
  - now destruct (isfile path).
  - destruct (isfile path); cbn; [reflexivity |].
    destruct e; [| reflexivity]. now rewrite IH.
Qed.

Lemma get_csv_path_spec (isfile : string -> bool) (path : string) (stdin : list stdin_event) :
  IMDB_data_analysis_get_csv_path isfile path stdin
  = match find isfile (path :: typed_paths stdin) with
    | Some p =>
        (map Error_csv_not_found (rejected isfile (path :: typed_paths stdin))
           ++ [Info_found_csv p], Returned p)
    | None =>
        (map Error_csv_not_found (path :: typed_paths stdin)
           ++ [Error_input_interrupted], Exited 1%Z)
    end.
Proof.
  revert path. induction stdin as [| e stdin IH]; intros path.
  - cbn. now destruct (isfile path).
  - cbn [IMDB_data_analysis_get_csv_path typed_paths find rejected].
    destruct (isfile path) eqn:E; cbn [negb]; [reflexivity |].
    destruct e as [s |].
    + rewrite IH. cbn [find rejected typed_paths].
      destruct (isfile (Py.strip s)) eqn:E'; [reflexivity |].
      destruct (find isfile (typed_paths stdin)); reflexivity.
    + reflexivity.
Qed.

(** X1: the path prompt.  [get_csv_path] is the same function in both
    scripts.  It returns the first path, among the given one and the trimmed
    lines typed before an interrupt or the end of input, that is an existing
    file, after logging one error for each path before it; when none is a
    file it logs an error for each and exits with status 1. *)
Theorem get_csv_path_first_existing :
  forall (isfile : string -> bool) (path : string) (stdin : list stdin_event),
    imdb_get_csv_path isfile path stdin
    = IMDB_data_analysis_get_csv_path isfile path stdin /\
    match snd (IMDB_data_analysis_get_csv_path isfile path stdin) with
    | Returned p =>
        isfile p = true /\
        exists before after,
          path :: typed_paths stdin = before ++ p :: after /\
          Forall (fun c => isfile c = false) before /\
          fst (IMDB_data_analysis_get_csv_path isfile path stdin)
          = map Error_csv_not_found before ++ [Info_found_csv p]
    | Exited code =>
        code = 1%Z /\
        Forall (fun c => isfile c = false) (path :: typed_paths stdin) /\
        fst (IMDB_data_analysis_get_csv_path isfile path stdin)
        = map Error_csv_not_found (path :: typed_paths stdin) ++ [Error_input_interrupted]
    end.
Proof.
  intros isfile path stdin. split; [apply get_csv_path_same |].
  rewrite get_csv_path_spec.
  generalize (path :: typed_paths stdin). intros l.
  destruct (find isfile l) as [p |] eqn:E; cbn [fst snd].
  - split; [now apply find_some in E |].
    induction l as [| c l IH]; [discriminate |].
    cbn in E |- *. destruct (isfile c) eqn:Ec.
    + injection E as ->. exists [], l. repeat split. constructor.
    + destruct (IH E) as (before & after & -> & Hb & Hl).
      exists (c :: before), after. repeat split; [now constructor |].
      cbn. f_equal. exact Hl.
  - repeat split. apply Forall_forall. intros c Hc.
    now apply (find_none _ _ E).
Qed.

(** *** De-duplication composes *)

Lemma drop_duplicates_go_NoDup_fixed (seen : list (option string)) (df : frame) :
  NoDup (map Series_Title df) ->
  (forall r, In r df -> ~ In (Series_Title r) seen) ->
  Pd.drop_duplicates_go option_string_eqb Series_Title seen df = df.
Proof.
  revert seen. induction df as [| r df IH]; intros seen Hnd Hs; [reflexivity |].
  cbn. inversion Hnd as [| ? ? Hr Hnd']; subst.
  destruct (existsb (option_string_eqb (Series_Title r)) seen) eqn:E.
  - apply (existsb_eqb_In _ option_string_eqb_spec) in E.
    elim (Hs r (or_introl eq_refl)). exact E.
  - f_equal. apply IH; [assumption |].
    intros r' Hr' [Heq | Hin].
    + apply Hr. rewrite Heq. now apply in_map.
    + apply (Hs r'); [now right | assumption].
Qed.

Lemma drop_duplicates_go_map (h : row -> row) (seen : list (option string)) (df : frame) :
  (forall r, Series_Title (h r) = Series_Title r) ->
  Pd.drop_duplicates_go option_string_eqb Series_Title seen (map h df)
  = map h (Pd.drop_duplicates_go option_string_eqb Series_Title seen df).
Proof.
  intros Hh. revert seen. induction df as [| r df IH]; intros seen; [reflexivity |].
  cbn. rewrite Hh. destruct (existsb _ seen); [apply IH |].
  cbn. f_equal. apply IH.
Qed.

(** *** Splitting a joined genre string *)

Lemma split_go_sep_other (c : ascii) (s : string) :
  c <> comma ->
  Py.split_go ", " 0 (String c s)
  = let (h, t) := Py.split_go ", " 0 s in (String c h, t).
Proof.
  intros Hc. cbn [Py.split_go prefix].
  destruct (ascii_dec ","%char c) as [E | _]; [now elim Hc |]. reflexivity.
Qed.

Lemma split_go_sep_here (s : string) :
  Py.split_go ", " 0 (String comma (String " "%char s))
  = (EmptyString, let (h, t) := Py.split_go ", " 0 s in h :: t).
Proof. cbn. now destruct s. Qed.

Lemma split_go_sep_no_comma (t : string) :
  no_comma t -> Py.split_go ", " 0 t = (t, []).
Proof.
  induction t as [| c t IH]; [reflexivity |].
  intros [Hc Ht]. rewrite (split_go_sep_other _ _ Hc), (IH Ht). reflexivity.
Qed.

Lemma split_go_sep_piece (t r : string) :
  no_comma t ->
  Py.split_go ", " 0 (t ++ String comma (String " "%char r))%string
  = (t, let (h, tl) := Py.split_go ", " 0 r in h :: tl).
Proof.
  induction t as [| c t IH]; intros Ht.
  - cbn [append]. apply split_go_sep_here.
  - destruct Ht as [Hc Ht]. cbn [append].
    rewrite (split_go_sep_other _ _ Hc), (IH Ht). reflexivity.
Qed.

Lemma split_sep_join (t : string) (ts : list string) :
  Forall no_comma (t :: ts) ->
  Py.split ", " (Py.join ", " (t :: ts)) = t :: ts.
Proof.
  revert t. induction ts as [| u ts IH]; intros t H.
  - unfold Py.split. cbn [Py.join]. rewrite split_go_sep_no_comma; [reflexivity |].
    now inversion H.
  - inversion H as [| ? ? Ht Hts]; subst.
    specialize (IH u Hts). unfold Py.split in *.
    change (Py.join ", " (t :: u :: ts))
      with (t ++ String comma (String " "%char (Py.join ", " (u :: ts))))%string.
    rewrite (split_go_sep_piece _ _ Ht).
    destruct (Py.split_go ", " 0 (Py.join ", " (u :: ts))) as [h tl].
    injection IH as -> ->. reflexivity.
Qed.

Lemma genre_pieces_no_comma (g : string) : Forall no_comma (genre_pieces g).
Proof.
  apply sorted_Forall, Forall_map.
  eapply Forall_impl; [| apply split_pieces_no_comma].
  intros; now apply strip_no_comma.
Qed.

Lemma genre_pieces_not_nil (g : string) : genre_pieces g <> [].
Proof.
  apply sorted_not_nil. unfold Py.split.
  destruct (Py.split_go "," 0 g); discriminate.
Qed.

Lemma split_clean_genre (g : string) :
  Py.split ", " (clean_genre g) = genre_pieces g.
Proof.
  unfold clean_genre. fold (genre_pieces g).
  pose proof (genre_pieces_no_comma g) as H.
  pose proof (genre_pieces_not_nil g) as Hne.
  destruct (genre_pieces g) as [| t ts]; [easy |].
  now apply split_sep_join.
Qed.

Lemma split_comma_length (g : string) :
  List.length (Py.split "," g) = S (count_commas g).
Proof.
  unfold Py.split.
  assert (H : List.length (snd (Py.split_go "," 0 g)) = count_commas g).
  { induction g as [| c g IH]; [reflexivity |].
    rewrite split_go_comma_step. cbn [count_commas].
    destruct (Py.split_go "," 0 g) as [h t]. cbn [snd] in IH.
    destruct (Ascii.eqb c comma); cbn; lia. }
  destruct (Py.split_go "," 0 g); cbn in *. now rewrite H.
Qed.

Lemma genre_pieces_length (g : string) :
  List.length (genre_pieces g) = S (count_commas g).
Proof.
  unfold genre_pieces.
  rewrite (Permutation_length (sorted_Permutation _ _)), length_map.
  apply split_comma_length.
Qed.

Lemma clean_genre_fixed (g : string) : clean_genre (clean_genre g) = clean_genre g.
Proof.
  unfold clean_genre at 2 3. fold (genre_pieces g).
  pose proof (genre_pieces_no_comma g) as Hcomma.
  assert (Hstrip : Forall (fun t => Py.strip t = t) (genre_pieces g)).
  { apply sorted_Forall, Forall_map, Forall_forall. intros; apply strip_idempotent. }
  assert (Hsorted : Py.sorted String.leb (genre_pieces g) = genre_pieces g).
  { apply sorted_fixed, sorted_LocallySorted, String.leb_total. }
  pose proof (genre_pieces_not_nil g) as Hne.
  destruct (genre_pieces g) as [| t ts]; [easy |].
  unfold clean_genre. rewrite (split_join_comma _ _ Hcomma).
  cbn [map]. rewrite map_map.
  replace (Py.strip t :: map (fun x => Py.strip (String " "%char x)) ts) with (t :: ts).
  - now rewrite Hsorted.
  - inversion Hstrip as [| ? ? H1 H2]; subst. f_equal; [easy |].
    clear - H2. induction H2 as [| u ts Hu _ IH]; [reflexivity |].
    cbn [map]. rewrite strip_after_space, Hu. now f_equal.
Qed.

Lemma count_commas_clean_genre (g : string) :
  count_commas (clean_genre g) = count_commas g.
Proof.
  pose proof (split_comma_length (clean_genre g)) as H1.
  pose proof (genre_pieces_length g) as H2.
  pose proof (genre_pieces_no_comma g) as Hcomma.
  pose proof (genre_pieces_not_nil g) as Hne.
  unfold clean_genre in H1 at 1. fold (genre_pieces g) in H1.
  destruct (genre_pieces g) as [| t ts]; [easy |].
  rewrite (split_join_comma _ _ Hcomma) in H1. cbn [List.length] in H1, H2.
  rewrite length_map in H1. lia.
Qed.

(** *** The derived columns of the final frame *)

Lemma is_digit_value_nonneg (c : ascii) : Py.is_digit c = true -> (0 <= Py.digit_value c)%Z.
Proof.
  unfold Py.is_digit, Py.digit_value. cbv zeta. intros H.
  apply andb_prop in H as [H _]. apply Nat.leb_le in H.
  generalize dependent (nat_of_ascii c). intros n H. lia.
Qed.

Lemma int_acc_nonneg (s : string) (acc : Z) :
  Py.digit_run s = s -> (0 <= acc)%Z -> (0 <= Py.int_acc acc s)%Z.
Proof.
  revert acc. induction s as [| c s IH]; intros acc Hs Hacc; [exact Hacc |].
  cbn [Py.digit_run Py.int_acc] in Hs |- *.
  destruct (Py.is_digit c) eqn:Hc; [| discriminate].
  injection Hs as Hs. apply IH; [exact Hs |].
  pose proof (is_digit_value_nonneg c Hc). lia.
Qed.

Lemma astype_extract_nonneg (c : option string) (v : Pd.cell) :
  Pd.astype_int (Pd.str_extract_digits c) = Py.Ok v ->
  exists m : Z, v = Pd.Int m /\ (0 <= m <= Pd.int64_max)%Z.
Proof.
  destruct c as [s |]; cbn; [| discriminate].
  destruct (Py.search_digits s) as [d |]; cbn; [| discriminate].
  destruct (String.eqb_spec d EmptyString); cbn; [discriminate |].
  destruct (String.eqb_spec (Py.digit_run d) d) as [E | _]; [| discriminate].
  destruct (Z.leb_spec (Py.int d) Pd.int64_max) as [Hmax | _]; [| discriminate].
  intros [= <-]. eexists. split; [reflexivity |]. split; [| exact Hmax].
  unfold Py.int. apply int_acc_nonneg; [exact E | lia].
Qed.

Lemma decade_after_extract (Q0 : row -> Prop) (t : bool) (df df1 : frame) :
  (forall r v, Q0 r -> Q0 (set_Runtime_Minutes v r)) ->
  (forall r v, Q0 r -> Q0 (set_Decade v r)) ->
  extract_Runtime_Minutes t df = Py.Ok df1 ->
  Forall (fun r => cleaned_row r /\ Q0 r) df ->
  Forall (fun r => half_enriched r /\ Q0 r) (assign_Decade df1).
Proof.
  intros Hq1 Hq2 H HF. destruct t; [| discriminate].
  unfold assign_Decade. apply Forall_map.
  eapply traverse_Forall; [| exact HF | exact H].
  intros r r' [(_ & Hg & _ & _ & y & Hy) Hq]. cbn.
  destruct (Pd.astype_int _) as [v |] eqn:E; [| discriminate].
  intros [= <-]. apply astype_extract_nonneg in E as (m & -> & Hm).
  split; [| now apply Hq2, Hq1].
  destruct (Genre r) as [g |] eqn:G; [| contradiction].
  exists y, m, g. cbn. rewrite Hy. cbn. repeat split; auto; apply Hm.
Qed.

Lemma feature_engineering_enriched (rt gt : bool) (df df' : frame) :
  snd (IMDB_data_analysis.feature_engineering rt gt df) = Py.Ok df' ->
  Forall cleaned_row df -> Forall enriched_row df'.
Proof.
  intros H HF. apply feature_engineering_inv in H as (df1 & df2 & H1 & H2 & ->).
  eapply subseq_Forall; [apply drop_duplicate_titles_subseq |].
  assert (Hh : Forall (fun r => half_enriched r /\ True) (assign_Decade df1)).
  { eapply (decade_after_extract (fun _ => True)); [auto | auto | exact H1 |].
    eapply Forall_impl; [| exact HF]. now intros. }
  eapply traverse_Forall; [| exact Hh | exact H2].
  intros r r' [(y & m & g & Hy & Hd & Hm & Hm0 & Hg) _]. cbn. rewrite Hg.
  destruct gt; [| discriminate].
  intros [= <-]. exists y, m, (clean_genre g). cbn.
  repeat split; auto; try apply Hm0. apply clean_genre_fixed.
Qed.

Lemma feature_extraction_enriched (parse : string -> option Q) (rt gt : bool) (df df' : frame) :
  snd (imdb.feature_extraction parse rt gt df) = Py.Ok df' ->
  Forall cleaned_row df -> Forall (fun r => enriched_row r /\ genre_counted r) df'.
Proof.
  intros H HF. apply feature_extraction_inv in H as (df0 & df1 & df2 & H0 & H1 & H2 & ->).
  eapply subseq_Forall; [apply drop_duplicate_titles_subseq |].
  unfold imdb.ensure_numeric. apply Forall_map.
  assert (H0' : Forall (fun r => cleaned_row r /\ raw_genre_counted r) df0).
  { unfold imdb.assign_Num_Genres in H0. destruct gt; [| discriminate].
    injection H0 as <-. apply Forall_map.
    eapply Forall_impl; [| exact HF]. intros r Hr. split; [exact Hr |].
    intros g Hg. cbn in Hg |- *. rewrite Hg. now rewrite split_comma_length. }
  assert (Hh : Forall (fun r => half_enriched r /\ raw_genre_counted r) (assign_Decade df1)).
  { eapply (decade_after_extract raw_genre_counted); [| | exact H1 | exact H0'];
      intros r v Hr g Hg; exact (Hr g Hg). }
  eapply traverse_Forall; [| exact Hh | exact H2].
  intros r r' [(y & m & g & Hy & Hd & Hm & Hm0 & Hg) Hn]. cbn. rewrite Hg.
  destruct gt; [| discriminate].
  intros [= <-]. specialize (Hn g Hg). split.
  - exists y, m, (clean_genre g). cbn. rewrite Hy, Hm. cbn.
    repeat split; auto; try apply Hm0. apply clean_genre_fixed.
  - exists (clean_genre g). cbn.
    rewrite split_clean_genre, genre_pieces_length, count_commas_clean_genre.
    repeat split; exact Hn.
Qed.

Lemma clean_cleaned_imdb (parse : string -> option Q) (df df' : frame) :
  snd (imdb.clean parse df) = Py.Ok df' -> Forall cleaned_row df'.
Proof.
  intros H. eapply clean_cleaned.
  destruct (clean_result parse df) as (h & Ha & Hb & _). rewrite Ha, <- Hb. exact H.
Qed.

Lemma StronglySorted_firstn_skipn {A : Type} (R : A -> A -> Prop) (n : nat) (l : list A) :
  StronglySorted R l ->
  forall a b, In a (firstn n l) -> In b (skipn n l) -> R a b.
Proof.
  intros H. revert n. induction H as [| x l Hl IH Hx]; intros n a b.
  - now rewrite firstn_nil.
  - destruct n as [| n]; cbn; [easy |].
    intros [<- | Ha] Hb.
    + rewrite Forall_forall in Hx. apply Hx.
      rewrite <- (firstn_skipn n l). apply in_or_app. now right.
    + eapply IH; eassumption.
Qed.

(** *** The row of greatest gross *)

Section FirstMaxSpec.
Context {A : Type} (leb : A -> A -> bool).
Hypothesis leb_total : forall a b, leb a b = true \/ leb b a = true.
Hypothesis leb_trans : forall a b c, leb a b = true -> leb b c = true -> leb a c = true.

Lemma first_max_None (l : list A) : Pd.first_max leb l = None -> l = [].
Proof.
  destruct l as [| x l]; [reflexivity |]. cbn.
  destruct (Pd.first_max leb l) as [m |]; [destruct (leb m x) |]; discriminate.
Qed.

Lemma first_max_spec (l : list A) (m : A) :
  Pd.first_max leb l = Some m ->
  exists l1 l2,
    l = l1 ++ m :: l2 /\
    (forall y, In y l1 -> leb m y = false) /\
    (forall y, In y l2 -> leb y m = true).
Proof.
  revert m. induction l as [| x l IH]; intros m; [discriminate |].
  cbn [Pd.first_max]. destruct (Pd.first_max leb l) as [m' |] eqn:E.
  - destruct (IH m' eq_refl) as (l1 & l2 & -> & H1 & H2).
    destruct (leb m' x) eqn:Ex; intros [= <-].
    + exists [], (l1 ++ m' :: l2). repeat split; [easy |].
      intros y Hy. apply in_app_or in Hy as [Hy | [<- | Hy]].
      * apply leb_trans with m'; [| exact Ex].
        destruct (leb_total y m') as [H | H]; [exact H |].
        rewrite (H1 y Hy) in H. discriminate.
      * exact Ex.
      * apply leb_trans with m'; [now apply H2 | exact Ex].
    + exists (x :: l1), l2. repeat split; [| exact H2].
      intros y [<- | Hy]; [exact Ex | now apply H1].
  - intros [= <-]. apply first_max_None in E. subst l.
    exists [], []. repeat split; easy.
Qed.
End FirstMaxSpec.

Lemma flat_map_split_one {A B : Type} (f : A -> list B) (l : list A) (l1 l2 : list B) (m : B) :
  (forall x, List.length (f x) <= 1) ->
  flat_map f l = l1 ++ m :: l2 ->
  exists pre x post,
    l = pre ++ x :: post /\ flat_map f pre = l1 /\ f x = [m] /\ flat_map f post = l2.
Proof.
  intros Hf. revert l1. induction l as [| x l IH]; intros l1; cbn.
  - destruct l1; discriminate.
  - pose proof (Hf x) as Hx. destruct (f x) as [| b [| b' fx]] eqn:E; cbn in Hx |- *; [| | lia].
    + intros H. destruct (IH l1 H) as (pre & x' & post & -> & H1 & H2 & H3).
      exists (x :: pre), x', post. cbn. rewrite E. cbn. now repeat split.
    + destruct l1 as [| b1 l1]; cbn.
      * intros [= -> <-]. exists [], x, l. cbn. now repeat split.
      * intros [= -> H]. destruct (IH l1 H) as (pre & x' & post & -> & H1 & H2 & H3).
        exists (x :: pre), x', post. cbn. rewrite E. cbn. repeat split; auto. now f_equal.
Qed.

Lemma find_index_NoDup (pre post : frame) (r : row) :
  NoDup (map index (pre ++ r :: post)) ->
  find (fun r' => (index r' =? index r)%nat) (pre ++ r :: post) = Some r.
Proof.
  induction pre as [| x pre IH]; cbn; intros H.
  - now rewrite Nat.eqb_refl.
  - inversion H as [| ? ? Hx Hnd]; subst.
    destruct (Nat.eqb_spec (index x) (index r)) as [E | _]; [| now apply IH].
    elim Hx. rewrite E, map_app. apply in_or_app. right. now left.
Qed.

Lemma labelled_values_frame (df : frame) :
  Pd.labelled_values (map (fun r => (index r, Gross r)) df) = flat_map labelled_gross df.
Proof.
  unfold Pd.labelled_values. induction df as [| r df IH]; [reflexivity |].
  cbn. now rewrite IH.
Qed.

Lemma labelled_gross_values (df : frame) :
  map snd (flat_map labelled_gross df) = Pd.numeric_values (map Gross df).
Proof.
  unfold Pd.numeric_values. induction df as [| r df IH]; [reflexivity |].
  cbn. rewrite map_app, IH. f_equal. unfold labelled_gross.
  now destruct (Pd.as_float (Gross r)).
Qed.

Lemma In_labelled_gross (df : frame) (r : row) (q : Q) :
  In r df -> Pd.as_float (Gross r) = Some q -> In (index r, q) (flat_map labelled_gross df).
Proof.
  intros Hr Hq. apply in_flat_map. exists r. split; [exact Hr |].
  unfold labelled_gross. rewrite Hq. now left.
Qed.

Lemma idxmax_frame (df : frame) :
  df <> [] ->
  Pd.idxmax (map (fun r => (index r, Gross r)) df)
  = Py.Ok (option_map fst
             (Pd.first_max (fun a b => Qle_bool (snd a) (snd b))
                           (flat_map labelled_gross df))).
Proof.
  intros H. unfold Pd.idxmax. rewrite labelled_values_frame.
  destruct df; [now elim H | reflexivity].
Qed.

Lemma highest_gross_row_spec (df : frame) :
  NoDup (map index df) ->
  Pd.numeric_values (map Gross df) <> [] ->
  exists pre r post q,
    df = pre ++ r :: post /\
    highest_gross_row df = Py.Ok r /\
    Pd.as_float (Gross r) = Some q /\
    (forall r' q', In r' pre -> Pd.as_float (Gross r') = Some q' -> (q' < q)%Q) /\
    (forall r' q', In r' post -> Pd.as_float (Gross r') = Some q' -> (q' <= q)%Q).
Proof.
  intros Hnd Hne. unfold highest_gross_row.
  rewrite idxmax_frame by (intros ->; now elim Hne).
  destruct (Pd.first_max (fun a b => Qle_bool (snd a) (snd b)) (flat_map labelled_gross df))
    as [[i q] |] eqn:E.
  - apply first_max_spec in E as (l1 & l2 & Hl & H1 & H2).
    + apply flat_map_split_one in Hl as (pre & r & post & -> & Hpre & Hr & Hpost).
      * unfold labelled_gross in Hr at 1.
        destruct (Pd.as_float (Gross r)) as [q0 |] eqn:Hq; [| discriminate].
        injection Hr as <- <-.
        exists pre, r, post, q0. split; [reflexivity |]. split.
        { cbn [option_map fst loc]. now rewrite find_index_NoDup. }
        split; [exact Hq |]. split.
        -- intros r' q' Hin Hq'. apply Qnot_le_lt. intros Hle.
           apply Qle_bool_iff in Hle.
           rewrite <- Hpre in H1.
           specialize (H1 _ (In_labelled_gross pre r' q' Hin Hq')). cbn in H1. congruence.
        -- intros r' q' Hin Hq'. apply Qle_bool_iff.
           rewrite <- Hpost in H2.
           exact (H2 _ (In_labelled_gross post r' q' Hin Hq')).
      * intros x. unfold labelled_gross. destruct (Pd.as_float (Gross x)); cbn; lia.
    + intros a b. rewrite !Qle_bool_iff.
      destruct (Qlt_le_dec (snd a) (snd b)); [left; now apply Qlt_le_weak | now right].
    + intros a b c. rewrite !Qle_bool_iff. apply Qle_trans.
  - apply first_max_None in E. elim Hne. now rewrite <- labelled_gross_values, E.
Qed.

(** X2: de-duplication composes.  De-duplicating a de-duplicated frame
    changes nothing, and de-duplication commutes with the column assignments
    of the scripts that leave the title alone (decade, certificate fill,
    genre count, numeric re-coercion): it may run before or after them. *)
Theorem drop_duplicate_titles_composes :
  (forall df : frame,
      drop_duplicate_titles (drop_duplicate_titles df) = drop_duplicate_titles df) /\
  (forall df : frame,
      drop_duplicate_titles (assign_Decade df) = assign_Decade (drop_duplicate_titles df)) /\
  (forall df : frame,
      drop_duplicate_titles (fill_Certificate df)
      = fill_Certificate (drop_duplicate_titles df)) /\
  (forall (Genre_object : bool) (df : frame),
      result_map drop_duplicate_titles (imdb.assign_Num_Genres Genre_object df)
      = imdb.assign_Num_Genres Genre_object (drop_duplicate_titles df)) /\
  (forall (parse : string -> option Q) (df : frame),
      drop_duplicate_titles (imdb.ensure_numeric parse df)
      = imdb.ensure_numeric parse (drop_duplicate_titles df)).
Proof.
  split.
  - intros df. apply drop_duplicates_go_NoDup_fixed.
    + apply drop_duplicate_titles_NoDup.
    + intros r _ [].
  - repeat split; intros; try (apply drop_duplicates_go_map; reflexivity).
    unfold imdb.assign_Num_Genres. destruct Genre_object; [| reflexivity].
    cbn [result_map]. f_equal. apply drop_duplicates_go_map. reflexivity.
Qed.

(** X3: the genre explosion undoes the join.  Splitting a normalised
    genre string on ", " gives back exactly its trimmed, sorted pieces (and
    joining them again gives the string); each piece has no comma and no
    outer white space.  So the tokens counted for the insights are, row by
    row, the pieces of the genre strings as given. *)
Theorem genre_explosion_recovers_pieces :
  (forall g : string, Py.split ", " (clean_genre g) = genre_pieces g) /\
  (forall g : string, Py.join ", " (Py.split ", " (clean_genre g)) = clean_genre g) /\
  (forall g : string,
      Forall (fun t => no_comma t /\ Py.strip t = t) (Py.split ", " (clean_genre g))) /\
  (forall (Genre_object : bool) (df : frame),
      match apply_clean_genre Genre_object df with
      | Py.Ok df' =>
          Pd.dropna_text (Pd.str_split_explode ", " (map Genre df'))
          = flat_map genre_pieces (Pd.dropna_text (map Genre df))
      | Py.Raise _ => True
      end).
Proof.
  split; [exact split_clean_genre |]. split; [| split].
  - intros g. now rewrite split_clean_genre.
  - intros g. rewrite split_clean_genre.
    pose proof (genre_pieces_no_comma g) as H1.
    assert (H2 : Forall (fun t => Py.strip t = t) (genre_pieces g)).
    { apply sorted_Forall, Forall_map, Forall_forall. intros; apply strip_idempotent. }
    rewrite Forall_forall in *. auto.
  - intros t df. unfold apply_clean_genre.
    induction df as [| r df IH]; [reflexivity |].
    cbn [Pd.traverse]. destruct t; [| exact I].
    destruct (Genre r) as [g |] eqn:G; [| exact I].
    destruct (Pd.traverse _ df) as [df' |]; [| exact I].
    cbn [map Genre set_Genre]. rewrite G.
    unfold Pd.str_split_explode, Pd.dropna_text in *.
    cbn [flat_map]. rewrite !flat_map_app, IH. f_equal.
    rewrite split_clean_genre. cbn [flat_map]. rewrite app_nil_r.
    generalize (genre_pieces g). intros l. induction l; cbn; [reflexivity | now f_equal].
Qed.

(** X4: the genre count.  [Num_Genres] is one more than the number of
    commas of the genre string, and normalising the string does not change
    it: in the final frame of imdb.py every row's [Num_Genres] is the number
    of tokens that the explosion of its genre yields. *)
Theorem num_genres_counts_tokens :
  (forall g : string, List.length (Py.split "," g) = S (count_commas g)) /\
  (forall g : string,
      List.length (Py.split ", " (clean_genre g)) = List.length (Py.split "," g)) /\
  (forall (parse : string -> option Q) (sort : list (string * nat) -> list (string * nat))
          (data : list Csv.line),
      match snd (imdb.main parse sort data) with
      | Py.Ok df => Forall genre_counted df
      | Py.Raise _ => True
      end).
Proof.
  split; [exact split_comma_length |]. split.
  - intros g. now rewrite split_clean_genre, genre_pieces_length, split_comma_length.
  - intros parse sort data.
    destruct (snd (imdb.main parse sort data)) as [df |] eqn:E; [| exact I].
    apply main_inv_imdb in E as (rt & gt & df0 & H0 & H1).
    eapply Forall_impl;
      [| eapply feature_extraction_enriched; [exact H1 | eapply clean_cleaned_imdb, H0]].
    now intros r [_ H].
Qed.

(** X5: the derived columns of a finished run.  When a run of either
    script succeeds, every row of its frame has an integer release year, a
    decade that is this year floor-divided by ten, times ten, in 64-bit
    arithmetic, a runtime in minutes from 0 to 2^63 - 1 and a genre string
    in normal form. *)
Theorem final_rows_enriched
        (parse : string -> option Q) (sort : list (string * nat) -> list (string * nat))
        (data : list Csv.line) :
  match snd (IMDB_data_analysis.main parse sort data) with
  | Py.Ok df => Forall enriched_row df
  | Py.Raise _ => True
  end /\
  match snd (imdb.main parse sort data) with
  | Py.Ok df => Forall enriched_row df
  | Py.Raise _ => True
  end.
Proof.
  split.
  - destruct (snd (IMDB_data_analysis.main parse sort data)) as [df |] eqn:E; [| exact I].
    apply main_inv_IMDB_data_analysis in E as (rt & gt & df0 & H0 & H1).
    eapply feature_engineering_enriched; [exact H1 | eapply clean_cleaned, H0].
  - destruct (snd (imdb.main parse sort data)) as [df |] eqn:E; [| exact I].
    apply main_inv_imdb in E as (rt & gt & df0 & H0 & H1).
    eapply Forall_impl;
      [| eapply feature_extraction_enriched; [exact H1 | eapply clean_cleaned_imdb, H0]].
    now intros r [H _].
Qed.

Lemma final_rows_enriched_witness :
  (exists df,
      snd (IMDB_data_analysis.main parse_decimal sort_keeping_ties two_films) = Py.Ok df /\
      map Series_Title df = [Some "Heat"; Some "Ran"] /\ Forall enriched_row df) /\
  (exists df,
      snd (imdb.main parse_decimal sort_keeping_ties two_films) = Py.Ok df /\
      map Series_Title df = [Some "Heat"; Some "Ran"] /\ Forall enriched_row df).
Proof.
  destruct (final_rows_enriched parse_decimal sort_keeping_ties two_films) as [H1 H2].
  split.
  - destruct (snd (IMDB_data_analysis.main parse_decimal sort_keeping_ties two_films))
      as [df | e] eqn:E; [| vm_compute in E; discriminate].
    exists df. split; [reflexivity |]. split; [| exact H1].
    vm_compute in E. injection E as <-. reflexivity.
  - destruct (snd (imdb.main parse_decimal sort_keeping_ties two_films))
      as [df | e] eqn:E; [| vm_compute in E; discriminate].
    exists df. split; [reflexivity |]. split; [| exact H2].
    vm_compute in E. injection E as <-. reflexivity.
Defined.

(** X6: frequency tables and their first ten rows.  Whatever the sort by
    count does with equal counts, the genre and director tables of imdb.py
    list every label once, with the number of its occurrences, greater
    counts first; their first ten rows are at most ten, and no row left out
    has a greater count than a row shown. *)
Theorem counts_ranked_and_top_ten
        (sort : list (string * nat) -> list (string * nat))
        (Hsort : sorts_by_count sort) (df : frame) :
  ranks (Pd.dropna_text (Pd.str_split_explode ", " (map Genre df))) (genre_counts sort df) /\
  ranks (Pd.dropna_text (map Director df)) (director_counts sort df) /\
  List.length (head_counts 10 (genre_counts sort df)) <= 10 /\
  List.length (head_counts 10 (director_counts sort df)) <= 10 /\
  Forall (fun a => Forall (fun b => snd b <= snd a) (skipn 10 (genre_counts sort df)))
         (head_counts 10 (genre_counts sort df)) /\
  Forall (fun a => Forall (fun b => snd b <= snd a) (skipn 10 (director_counts sort df)))
         (head_counts 10 (director_counts sort df)).
Proof.
  pose proof (value_counts_ranks sort (Pd.str_split_explode ", " (map Genre df)) Hsort) as Hg.
  pose proof (value_counts_ranks sort (map Director df) Hsort) as Hd.
  split; [exact Hg |]. split; [exact Hd |].
  unfold head_counts. rewrite !length_firstn. split; [lia |]. split; [lia |].
  split; apply Forall_forall; intros a Ha; apply Forall_forall; intros b Hb.
  - exact (StronglySorted_firstn_skipn _ 10 _ (proj2 (proj2 Hg)) a b Ha Hb).
  - exact (StronglySorted_firstn_skipn _ 10 _ (proj2 (proj2 Hd)) a b Ha Hb).
Qed.

Lemma counts_ranked_and_top_ten_witness :
  sorts_by_count sort_reversing_ties /\
  ranks
    (Pd.dropna_text
       (map Director
          (director_rows [Some "Kurosawa"; None; Some "Mann"; Some "Mann"; Some "Kurosawa"])))
    (director_counts sort_reversing_ties
       (director_rows [Some "Kurosawa"; None; Some "Mann"; Some "Mann"; Some "Kurosawa"])).
Proof.
  split; [exact sort_reversing_ties_sorts |].
  exact (proj1 (proj2 (counts_ranked_and_top_ten
                         sort_reversing_ties sort_reversing_ties_sorts
                         (director_rows [Some "Kurosawa"; None; Some "Mann"; Some "Mann";
                                         Some "Kurosawa"])))).
Defined.

(** X7: most prolific director.  Missing directors are not counted.
    Whatever the sort by count does with equal counts, the lookup raises
    ValueError when no director is left and otherwise returns a director who
    occurs at least as often as every other; a director who occurs strictly
    more often than every other is the one returned. *)
Theorem top_director_greatest_count
        (sort : list (string * nat) -> list (string * nat))
        (Hsort : sorts_by_count sort) (df : frame) :
  let directors := Pd.dropna_text (map Director df) in
  (directors = [] -> top_director_of sort df = Py.Raise Py.ValueError) /\
  (directors <> [] ->
   exists d, top_director_of sort df = Py.Ok d /\ In d directors /\
             forall u, occurrences directors u <= occurrences directors d) /\
  (forall d,
      In d directors ->
      (forall u, u <> d -> occurrences directors u < occurrences directors d) ->
      top_director_of sort df = Py.Ok d).
Proof.
  intros directors. unfold top_director_of.
  destruct (idxmax_counts_greatest sort (map Director df) Hsort) as [H0 H1].
  split; [exact H0 |]. split; [exact H1 |].
  intros d Hd Hlt. now apply idxmax_counts_unique.
Qed.

Lemma top_director_greatest_count_witness :
  sorts_by_count sort_keeping_ties /\
  exists d,
    top_director_of sort_keeping_ties
      (director_rows [Some "Kurosawa"; None; Some "Mann"; Some "Mann"; Some "Kurosawa"])
    = Py.Ok d /\
    In d ["Kurosawa"; "Mann"; "Mann"; "Kurosawa"].
Proof.
  split; [exact sort_keeping_ties_sorts |].
  destruct (proj1 (proj2 (top_director_greatest_count
                            sort_keeping_ties sort_keeping_ties_sorts
                            (director_rows [Some "Kurosawa"; None; Some "Mann"; Some "Mann";
                                            Some "Kurosawa"]))))
    as (d & Hd & Hin & _).
  - vm_compute. discriminate.
  - exists d. split; [exact Hd | exact Hin].
Defined.

(** X8: the top-grossing row.  On a frame with distinct index labels and
    at least one numeric gross, the lookup returns a row of the frame whose
    gross is numeric, strictly greater than that of every earlier row and at
    least that of every later row; rows without a gross are passed over. *)
Theorem highest_gross_row_first_maximum (df : frame)
        (Hindex : NoDup (map index df))
        (Hvalues : Pd.numeric_values (map Gross df) <> []) :
  exists (pre : frame) (r : row) (post : frame) (q : Q),
    df = pre ++ r :: post /\
    highest_gross_row df = Py.Ok r /\
    Pd.as_float (Gross r) = Some q /\
    (forall r' q', In r' pre -> Pd.as_float (Gross r') = Some q' -> (q' < q)%Q) /\
    (forall r' q', In r' post -> Pd.as_float (Gross r') = Some q' -> (q' <= q)%Q).
Proof. exact (highest_gross_row_spec df Hindex Hvalues). Qed.

Lemma highest_gross_row_witness :
  exists (pre : frame) (r : row) (post : frame) (q : Q),
    gross_coerced_sample = pre ++ r :: post /\
    highest_gross_row gross_coerced_sample = Py.Ok r /\
    Pd.as_float (Gross r) = Some q /\
    (forall r' q', In r' pre -> Pd.as_float (Gross r') = Some q' -> (q' < q)%Q) /\
    (forall r' q', In r' post -> Pd.as_float (Gross r') = Some q' -> (q' <= q)%Q).
Proof.
  apply highest_gross_row_first_maximum.
  - change (NoDup (seq 0 4)). apply seq_NoDup.
  - vm_compute. discriminate.
Defined.
